(** * phone-api: the phone number validator of [api/validator.go]

    A shallow embedding of [PhoneNumberValidator] and of the three country
    tables it reads, followed by the properties of the validator that the
    specification states.

    Go strings are byte sequences: they are modelled as [string], one
    [ascii] per byte, [len] as [String.length].  A Go [error] value built by
    [errors.New] is modelled by its message. *)

From Stdlib Require Import String Ascii List Bool Arith Lia.
From stdpp Require Import base option list gmap strings.

Local Open Scope string_scope.
Local Open Scope list_scope.
Local Open Scope nat_scope.

(** ** Go values *)

(** [(T, error)]: either a value or the message of the error. *)
Inductive result (A : Type) : Type :=
| Ok (a : A)
| Err (msg : string).
Arguments Ok {A} a.
Arguments Err {A} msg.

(** [error] alone: [None] is [nil]. *)
Definition error : Type := option string.

(** [s[:n]] and [s[n:]].  Go panics when [n > len(s)]; every slice of the
    validator sits under a [len(s) >= n] or a [HasPrefix] guard. *)
Fixpoint slice_to (s : string) (n : nat) {struct n} : string :=
  match n, s with
  | S n', String c s' => String c (slice_to s' n')
  | _, _ => ""
  end.

Fixpoint slice_from (s : string) (n : nat) {struct n} : string :=
  match n, s with
  | S n', String _ s' => slice_from s' n'
  | _, _ => s
  end.

(** ** The part of package [strings] the validator calls *)

Module strings.

(** [strings.HasPrefix(s, prefix)]: the first [len(prefix)] bytes of [s]
    are those of [prefix]. *)
Fixpoint HasPrefix (s prefix : string) {struct prefix} : bool :=
  match prefix with
  | "" => true
  | String c prefix' =>
      match s with
      | "" => false
      | String c' s' => Ascii.eqb c' c && HasPrefix s' prefix'
      end
  end.

(** [strings.Contains(s, substr)]: [substr] starts at some offset of [s]. *)
Fixpoint Contains (s substr : string) : bool :=
  HasPrefix s substr
  || match s with
     | "" => false
     | String _ s' => Contains s' substr
     end.

(** Left-to-right scan shared by [Split] and [ReplaceAll], for a non-empty
    separator: [skip] counts the bytes of the current match that are still
    to be consumed. *)
Fixpoint split_from (sep : string) (skip : nat) (s : string) : list string :=
  match s with
  | "" => [""]
  | String c s' =>
      match skip with
      | S k => split_from sep k s'
      | 0 =>
          if HasPrefix s sep
          then "" :: split_from sep (String.length sep - 1) s'
          else match split_from sep 0 s' with
               | p :: ps => String c p :: ps
               | [] => [String c ""]
               end
      end
  end.

(** [strings.Split(s, sep)], [sep] non-empty. *)
Definition Split (s sep : string) : list string := split_from sep 0 s.

(** The same scan, writing [new] at each match of [old]. *)
Fixpoint replace_from (old new : string) (skip : nat) (s : string) : string :=
  match s with
  | "" => ""
  | String c s' =>
      match skip with
      | S k => replace_from old new k s'
      | 0 =>
          if HasPrefix s old
          then new +:+ replace_from old new (String.length old - 1) s'
          else String c (replace_from old new 0 s')
      end
  end.

(** [strings.ReplaceAll(s, old, new)], [old] non-empty. *)
Definition ReplaceAll (s old new : string) : string := replace_from old new 0 s.

End strings.

(** ** The compiled pattern [^[\d\s+]+$]

    In Go's RE2 syntax [\d] is [[0-9]], [\s] is [[\t\n\f\r ]], a [+] inside
    a class is the literal, and without the [m] flag [^] and [$] are the two
    ends of the text.  Every member of the class is an ASCII byte, and a
    byte above 127 always decodes to a rune outside the class, so matching
    is a test on bytes. *)
Module regexp.

Definition perl_d (c : ascii) : bool :=
  (48 <=? nat_of_ascii c) && (nat_of_ascii c <=? 57).

Definition perl_s (c : ascii) : bool :=
  Ascii.eqb c "009" || Ascii.eqb c "010" || Ascii.eqb c "012"
  || Ascii.eqb c "013" || Ascii.eqb c " ".

(** The class [[\d\s+]]. *)
Definition validChars_class (c : ascii) : bool :=
  perl_d c || perl_s c || Ascii.eqb c "+".

Fixpoint all_bytes (p : ascii -> bool) (s : string) : bool :=
  match s with
  | "" => true
  | String c s' => p c && all_bytes p s'
  end.

(** [validChars.MatchString(s)]: one or more bytes, all in the class. *)
Definition validChars_MatchString (s : string) : bool :=
  negb (String.eqb s "") && all_bytes validChars_class s.

End regexp.

(** ** The country tables *)

Definition CountryPhoneLengths : gmap string (nat * nat) :=
  list_to_map
    [ ("US", (10, 10)); ("CA", (10, 10)); ("MX", (10, 10)); ("ES", (9, 9));
      ("PT", (9, 9)); ("GB", (10, 11)); ("FR", (10, 10)); ("DE", (10, 12));
      ("IT", (9, 11)); ("BR", (10, 11)) ].

Definition CountryDialingCodes : gmap string string :=
  list_to_map
    [ ("US", "1"); ("CA", "1"); ("MX", "52"); ("ES", "34"); ("PT", "351");
      ("GB", "44"); ("FR", "33"); ("DE", "49"); ("IT", "39"); ("BR", "55") ].

Definition DialingCodeToCountry : gmap string string :=
  list_to_map
    [ ("1", "US"); ("52", "MX"); ("34", "ES"); ("351", "PT"); ("44", "GB");
      ("33", "FR"); ("49", "DE"); ("39", "IT"); ("55", "BR") ].

(** [m[k]] on a [map[string]string]: the zero value when [k] is absent. *)
Definition index_or_zero (m : gmap string string) (k : string) : string :=
  default "" (m !! k).

(** [_, exists := m[k]] *)
Definition exists_key {V} (m : gmap string V) (k : string) : bool :=
  bool_decide (is_Some (m !! k)).

Record PhoneValidationResponse : Type := {
  PhoneNumber : string;
  CountryCode : string;
  AreaCode : string;
  LocalPhoneNumber : string
}.

(** ** The validator *)

(** A [case] list of a [switch] on a string. *)
Definition case_of (x : string) (labels : list string) : bool :=
  existsb (String.eqb x) labels.

Definition cleanPhoneNumber (phoneNumber : string) : result string :=
  if negb (regexp.validChars_MatchString phoneNumber)
  then Err "phone number contains invalid characters"
  else Ok (strings.ReplaceAll phoneNumber " " "").

Definition validateSpacing (originalPhoneNumber : string) : error :=
  if strings.Contains originalPhoneNumber " "
  then
    let parts := strings.Split originalPhoneNumber " " in
    if length parts =? 4 then Some "invalid spacing pattern" else None
  else None.

(** The [range] over the map returns at the first hit; whether there is a
    hit does not depend on the iteration order. *)
Definition hasDialingCode (phoneNumber : string) : bool :=
  existsb (fun kv => strings.HasPrefix phoneNumber kv.1)
          (map_to_list DialingCodeToCountry).

Definition extractDialingCode (phoneNumber : string) : result (string * string) :=
  if (3 <=? String.length phoneNumber)
     && exists_key DialingCodeToCountry (slice_to phoneNumber 3)
  then Ok (slice_to phoneNumber 3, slice_from phoneNumber 3)
  else
  if (2 <=? String.length phoneNumber)
     && exists_key DialingCodeToCountry (slice_to phoneNumber 2)
  then Ok (slice_to phoneNumber 2, slice_from phoneNumber 2)
  else
  if (1 <=? String.length phoneNumber)
     && exists_key DialingCodeToCountry (slice_to phoneNumber 1)
  then Ok (slice_to phoneNumber 1, slice_from phoneNumber 1)
  else Err "unable to extract dialing code".

Definition splitNationalNumber (nationalNumber countryCode : string)
  : string * string :=
  if (3 <=? String.length nationalNumber) then
    if case_of countryCode ["US"; "CA"; "MX"] then
      (slice_to nationalNumber 3, slice_from nationalNumber 3)
    else if case_of countryCode ["ES"; "PT"; "FR"; "IT"; "BR"] then
      (slice_to nationalNumber 2, slice_from nationalNumber 2)
    else if case_of countryCode ["GB"] then
      if (4 <=? String.length nationalNumber)
      then (slice_to nationalNumber 4, slice_from nationalNumber 4)
      else (slice_to nationalNumber 3, slice_from nationalNumber 3)
    else if case_of countryCode ["DE"] then
      (slice_to nationalNumber 3, slice_from nationalNumber 3)
    else ("", nationalNumber)
  else ("", nationalNumber).

Definition parsePhoneNumber (phoneNumber providedCountryCode : string)
  : result (string * string * string) :=
  let hasPlus := strings.HasPrefix phoneNumber "+" in
  let phoneNumber := if hasPlus then slice_from phoneNumber 1 else phoneNumber in
  if hasPlus || hasDialingCode phoneNumber then
    match extractDialingCode phoneNumber with
    | Err msg => Err msg
    | Ok (dialingCode, remaining) =>
        match DialingCodeToCountry !! dialingCode with
        | None => Err "unsupported country dialing code"
        | Some country =>
            let '(areaCode, localNumber) := splitNationalNumber remaining country in
            Ok (country, areaCode, localNumber)
        end
    end
  else
    if String.eqb providedCountryCode ""
    then Err "countryCode is required for numbers without country code"
    else
      let '(areaCode, localNumber) :=
        splitNationalNumber phoneNumber providedCountryCode in
      Ok (providedCountryCode, areaCode, localNumber).

Definition validateCountryCode (countryCode : string) : error :=
  if negb (String.length countryCode =? 2)
  then Some "country code must be 2 characters (ISO 3166-1 alpha-2)"
  else if negb (exists_key CountryPhoneLengths countryCode)
  then Some "unsupported country code"
  else None.

Definition validatePhoneLength (nationalNumber countryCode : string) : error :=
  match CountryPhoneLengths !! countryCode with
  | None => Some "unsupported country code"
  | Some (minLength, maxLength) =>
      let actualLength := String.length nationalNumber in
      if (actualLength <? minLength) || (maxLength <? actualLength)
      then Some ("phone number length is invalid for country " +:+ countryCode)
      else None
  end.

Definition formatPhoneNumber (countryCode areaCode localNumber : string) : string :=
  let dialingCode := index_or_zero CountryDialingCodes countryCode in
  "+" +:+ dialingCode +:+ areaCode +:+ localNumber.

Definition ValidatePhoneNumber (phoneNumber countryCode : string)
  : result PhoneValidationResponse :=
  if String.eqb phoneNumber "" then Err "phoneNumber is required" else
  match validateSpacing phoneNumber with
  | Some err => Err err
  | None =>
  match cleanPhoneNumber phoneNumber with
  | Err err => Err err
  | Ok cleanedNumber =>
  match parsePhoneNumber cleanedNumber countryCode with
  | Err err => Err err
  | Ok (extractedCountryCode, areaCode, localNumber) =>
  match validateCountryCode extractedCountryCode with
  | Some err => Err err
  | None =>
  match validatePhoneLength (areaCode +:+ localNumber) extractedCountryCode with
  | Some err => Err err
  | None =>
      Ok {| PhoneNumber :=
              formatPhoneNumber extractedCountryCode areaCode localNumber;
            CountryCode := extractedCountryCode;
            AreaCode := areaCode;
            LocalPhoneNumber := localNumber |}
  end end end end end.

(** ** The handler of [api/handlers.go]

    The two other structs of the package have fields of the same names as
    [PhoneValidationResponse]; each sits in a module of its own. *)

Module PhoneValidationRequest.
Record t : Type := {
  PhoneNumber : string;
  CountryCode : string
}.
End PhoneValidationRequest.

Module ErrorResponse.
Record t : Type := {
  PhoneNumber : string;
  Error : gmap string string
}.
End ErrorResponse.

(** The value handed to [c.JSON]. *)
Inductive json_body : Type :=
| JSONError (e : ErrorResponse.t)
| JSONResponse (r : PhoneValidationResponse).

Definition StatusOK : nat := 200.
Definition StatusBadRequest : nat := 400.

Definition mapValidationError (errMsg : string) : gmap string string :=
  if String.eqb errMsg "phoneNumber is required" then
    {[ "phoneNumber" := "required value is missing" ]}
  else if String.eqb errMsg
            "countryCode is required for numbers without country code" then
    {[ "countryCode" := "required value is missing" ]}
  else if String.eqb errMsg
            "country code must be 2 characters (ISO 3166-1 alpha-2)" then
    {[ "countryCode" := "invalid format (must be ISO 3166-1 alpha-2)" ]}
  else if String.eqb errMsg "unsupported country code" then
    {[ "countryCode" := "unsupported country code" ]}
  else if String.eqb errMsg "phone number contains invalid characters" then
    {[ "phoneNumber" := "contains invalid characters" ]}
  else if String.eqb errMsg "invalid spacing pattern" then
    {[ "phoneNumber" := "invalid spacing pattern" ]}
  else if String.eqb errMsg "unsupported country dialing code" then
    {[ "phoneNumber" := "unsupported country dialing code" ]}
  else if (30 <? String.length errMsg)
          && String.eqb (slice_to errMsg 30) "phone number length is invalid" then
    {[ "phoneNumber" := "length is invalid for country" ]}
  else
    {[ "phoneNumber" := "invalid format" ]}.

(** [PhoneNumberLookup] once [c.ShouldBindQuery(&req)] has returned: [req]
    is the request as the binder left it and [bindErr] the error it
    returned.  The result is the status and the body given to [c.JSON]. *)
Definition PhoneNumberLookup (req : PhoneValidationRequest.t) (bindErr : error)
  : nat * json_body :=
  match bindErr with
  | Some _ =>
      (StatusBadRequest,
       JSONError {| ErrorResponse.PhoneNumber :=
                      PhoneValidationRequest.PhoneNumber req;
                    ErrorResponse.Error :=
                      {[ "validation" := "invalid request parameters" ]} |})
  | None =>
      match ValidatePhoneNumber (PhoneValidationRequest.PhoneNumber req)
                                (PhoneValidationRequest.CountryCode req) with
      | Err err =>
          let errorMsg := mapValidationError err in
          (StatusBadRequest,
           JSONError {| ErrorResponse.PhoneNumber :=
                          PhoneValidationRequest.PhoneNumber req;
                        ErrorResponse.Error := errorMsg |})
      | Ok response => (StatusOK, JSONResponse response)
      end
  end.

(** ** The vocabulary of the specification *)

(** The keys of [DialingCodeToCountry]: the known dialing codes. *)
Definition dialingCodes : list string :=
  ["1"; "52"; "34"; "351"; "44"; "33"; "49"; "39"; "55"].

(** The keys of [CountryPhoneLengths]: the supported countries. *)
Definition supportedCountries : list string :=
  ["US"; "CA"; "MX"; "ES"; "PT"; "GB"; "FR"; "DE"; "IT"; "BR"].

(** [c] is a known dialing code: a key of the reverse table. *)
Definition known_code (c : string) : Prop :=
  is_Some (DialingCodeToCountry !! c).

(** [s] starts with a known dialing code of [n] bytes. *)
Definition known_prefix (n : nat) (s : string) : Prop :=
  exists c, String.length c = n /\ strings.HasPrefix s c = true /\ known_code c.

(** Number of occurrences of a byte. *)
Fixpoint count_byte (c : ascii) (s : string) : nat :=
  match s with
  | "" => 0
  | String c' s' => (if Ascii.eqb c' c then 1 else 0) + count_byte c s'
  end.

(** Number of decimal digits among the bytes of a string. *)
Fixpoint digit_count (s : string) : nat :=
  match s with
  | "" => 0
  | String c s' => (if regexp.perl_d c then 1 else 0) + digit_count s'
  end.

(** The bytes that the specification allows: a decimal digit, the space
    and the plus sign. *)
Definition digit_space_plus (c : ascii) : bool :=
  regexp.perl_d c || Ascii.eqb c " " || Ascii.eqb c "+".

(** The round trip of C1 for one call, the country included. *)
Definition roundtrip_claim (phoneNumber countryCode : string) : Prop :=
  forall r,
    ValidatePhoneNumber phoneNumber countryCode = Ok r ->
    PhoneNumber r
    = "+" +:+ index_or_zero CountryDialingCodes (CountryCode r)
          +:+ AreaCode r +:+ LocalPhoneNumber r /\
    exists r',
      ValidatePhoneNumber (PhoneNumber r) "" = Ok r' /\
      CountryCode r' = CountryCode r /\
      AreaCode r' = AreaCode r /\
      LocalPhoneNumber r' = LocalPhoneNumber r.

(** Splits a membership in a literal list into its cases. *)
Ltac cases_of_elem H :=
  repeat (apply elem_of_cons in H as [H|H]);
  [ .. | by apply elem_of_nil in H ].

(** Closes one side of an equivalence between closed strings and
    memberships in literal lists. *)
Ltac entry_goal :=
  first [ discriminate
        | reflexivity
        | intros; reflexivity
        | intros; apply list_elem_of_In; simpl; tauto
        | intros Hm; cases_of_elem Hm; discriminate
        | intros _ Hm; cases_of_elem Hm; discriminate
        | intros Hm; exfalso; apply Hm; apply list_elem_of_In; simpl; tauto ].

(** ** The tests of [validator_test.go] and of the handler tests, replayed *)

Example test_US_plus :
  ValidatePhoneNumber "+12125690123" ""
  = Ok {| PhoneNumber := "+12125690123"; CountryCode := "US";
          AreaCode := "212"; LocalPhoneNumber := "5690123" |}.
Proof. vm_compute. reflexivity. Qed.

Example test_MX_spaces :
  ValidatePhoneNumber "+52 631 3118150" ""
  = Ok {| PhoneNumber := "+526313118150"; CountryCode := "MX";
          AreaCode := "631"; LocalPhoneNumber := "3118150" |}.
Proof. vm_compute. reflexivity. Qed.

Example test_ES_spaces :
  ValidatePhoneNumber "34 915 872200" ""
  = Ok {| PhoneNumber := "+34915872200"; CountryCode := "ES";
          AreaCode := "91"; LocalPhoneNumber := "5872200" |}.
Proof. vm_compute. reflexivity. Qed.

Example test_US_country_parameter :
  ValidatePhoneNumber "2125690123" "US"
  = Ok {| PhoneNumber := "+12125690123"; CountryCode := "US";
          AreaCode := "212"; LocalPhoneNumber := "5690123" |}.
Proof. vm_compute. reflexivity. Qed.

Example test_missing_country :
  ValidatePhoneNumber "2125690123" ""
  = Err "countryCode is required for numbers without country code".
Proof. vm_compute. reflexivity. Qed.

Example test_ESP :
  ValidatePhoneNumber "2125690123" "ESP"
  = Err "country code must be 2 characters (ISO 3166-1 alpha-2)".
Proof. vm_compute. reflexivity. Qed.

Example test_letters :
  ValidatePhoneNumber "212abc0123" "US"
  = Err "phone number contains invalid characters".
Proof. vm_compute. reflexivity. Qed.

Example test_hyphen :
  ValidatePhoneNumber "212-569-0123" "US"
  = Err "phone number contains invalid characters".
Proof. vm_compute. reflexivity. Qed.

Example test_four_parts :
  ValidatePhoneNumber "351 21 094 2000" "" = Err "invalid spacing pattern".
Proof. vm_compute. reflexivity. Qed.

Example test_empty :
  ValidatePhoneNumber "" "US" = Err "phoneNumber is required".
Proof. vm_compute. reflexivity. Qed.

Example test_DE_max_length :
  ValidatePhoneNumber "+49301234567890" ""
  = Ok {| PhoneNumber := "+49301234567890"; CountryCode := "DE";
          AreaCode := "301"; LocalPhoneNumber := "234567890" |}.
Proof. vm_compute. reflexivity. Qed.

Example test_PT :
  ValidatePhoneNumber "+351210942000" ""
  = Ok {| PhoneNumber := "+351210942000"; CountryCode := "PT";
          AreaCode := "21"; LocalPhoneNumber := "0942000" |}.
Proof. vm_compute. reflexivity. Qed.

(** ** The model of package [strings] on the examples of its documentation *)

Example Split_commas : strings.Split "a,b,c" "," = ["a"; "b"; "c"].
Proof. reflexivity. Qed.

Example Split_long_separator :
  strings.Split "a man a plan a canal panama" "a "
  = [""; "man "; "plan "; "canal panama"].
Proof. reflexivity. Qed.

Example Split_absent : strings.Split "2125690123" " " = ["2125690123"].
Proof. reflexivity. Qed.

Example ReplaceAll_oink :
  strings.ReplaceAll "oink oink oink" "oink" "moo" = "moo moo moo".
Proof. reflexivity. Qed.

Example Contains_seafood :
  strings.Contains "seafood" "foo" = true /\
  strings.Contains "seafood" "bar" = false /\
  strings.Contains "seafood" "" = true /\
  strings.Contains "" "" = true.
Proof. repeat split; reflexivity. Qed.

Example HasPrefix_Gopher :
  strings.HasPrefix "Gopher" "Go" = true /\
  strings.HasPrefix "Gopher" "C" = false /\
  strings.HasPrefix "Gopher" "" = true.
Proof. repeat split; reflexivity. Qed.

(** ** The handler on the requests of its tests *)

Example handler_US_plus :
  PhoneNumberLookup {| PhoneValidationRequest.PhoneNumber := "+12125690123";
                       PhoneValidationRequest.CountryCode := "" |} None
  = (200, JSONResponse {| PhoneNumber := "+12125690123"; CountryCode := "US";
                          AreaCode := "212"; LocalPhoneNumber := "5690123" |}).
Proof. vm_compute. reflexivity. Qed.

Example handler_missing_country :
  PhoneNumberLookup {| PhoneValidationRequest.PhoneNumber := "2125690123";
                       PhoneValidationRequest.CountryCode := "" |} None
  = (400, JSONError {| ErrorResponse.PhoneNumber := "2125690123";
                       ErrorResponse.Error :=
                         {[ "countryCode" := "required value is missing" ]} |}).
Proof. vm_compute. reflexivity. Qed.

Example handler_too_short :
  PhoneNumberLookup {| PhoneValidationRequest.PhoneNumber := "+1212569";
                       PhoneValidationRequest.CountryCode := "" |} None
  = (400, JSONError {| ErrorResponse.PhoneNumber := "+1212569";
                       ErrorResponse.Error :=
                         {[ "phoneNumber" := "length is invalid for country" ]} |}).
Proof. vm_compute. reflexivity. Qed.

(** ** Byte strings: slices, prefixes, appends *)

Section ByteStrings.

Implicit Types (s t p : string) (c : ascii) (n : nat).

Lemma append_cons c s t : String c s +:+ t = String c (s +:+ t).
Proof. reflexivity. Qed.

Lemma append_nil_l s : "" +:+ s = s.
Proof. reflexivity. Qed.

Lemma length_append s t :
  String.length (s +:+ t) = String.length s + String.length t.
Proof.
  induction s as [|c s IH]; [reflexivity|].
  rewrite append_cons. simpl. by rewrite IH.
Qed.

Lemma slice_to_from s n : slice_to s n +:+ slice_from s n = s.
Proof.
  revert s; induction n as [|n IH]; intros [|c s]; try reflexivity.
  simpl. rewrite append_cons. by rewrite IH.
Qed.

Lemma length_slice_to s n :
  n <= String.length s -> String.length (slice_to s n) = n.
Proof.
  revert s; induction n as [|n IH]; intros [|c s] Hn; simpl in *;
    try reflexivity; try lia.
  rewrite IH; lia.
Qed.

Lemma slice_to_append p s : slice_to (p +:+ s) (String.length p) = p.
Proof.
  induction p as [|c p IH]; [by destruct s|].
  rewrite append_cons. simpl. by rewrite IH.
Qed.

Lemma slice_from_append p s : slice_from (p +:+ s) (String.length p) = s.
Proof.
  induction p as [|c p IH]; [by destruct s|].
  rewrite append_cons. simpl. by rewrite IH.
Qed.

(** [HasPrefix] says that the string is the prefix followed by a rest. *)
Lemma HasPrefix_spec s p :
  strings.HasPrefix s p = true <-> exists r, s = p +:+ r.
Proof.
  revert s. induction p as [|c p IH]; intros s; simpl.
  - split; [intros _; by exists s | done].
  - destruct s as [|c' s].
    { split; [discriminate | intros [r Hr]; discriminate]. }
    rewrite andb_true_iff, Ascii.eqb_eq, IH. split.
    + intros [-> [r ->]]. by exists r.
    + intros [r Hr]. rewrite append_cons in Hr. injection Hr as -> ->. eauto.
Qed.

Lemma HasPrefix_slice_to s n :
  n <= String.length s -> strings.HasPrefix s (slice_to s n) = true.
Proof.
  intros _. apply HasPrefix_spec. exists (slice_from s n).
  by rewrite slice_to_from.
Qed.

Lemma HasPrefix_length s p :
  strings.HasPrefix s p = true -> String.length p <= String.length s.
Proof.
  intros [r ->]%HasPrefix_spec. rewrite length_append. lia.
Qed.

Lemma HasPrefix_slice s p :
  strings.HasPrefix s p = true ->
  slice_to s (String.length p) = p /\
  s = p +:+ slice_from s (String.length p).
Proof.
  intros [r ->]%HasPrefix_spec.
  by rewrite slice_to_append, slice_from_append.
Qed.

Lemma eqb_empty_false c s : String.eqb (String c s) "" = false.
Proof. reflexivity. Qed.

End ByteStrings.

(** ** The tables, read as lists of entries *)

Section Tables.

Lemma case_of_true (x : string) (labels : list string) :
  case_of x labels = true <-> x ∈ labels.
Proof.
  unfold case_of. rewrite existsb_exists. split.
  - intros (y & Hy & ->%String.eqb_eq). by apply list_elem_of_In.
  - intros Hx. exists x. split; [by apply list_elem_of_In | apply String.eqb_refl].
Qed.

Lemma exists_key_true {V} (m : gmap string V) (k : string) :
  exists_key m k = true <-> is_Some (m !! k).
Proof. unfold exists_key. by rewrite bool_decide_eq_true. Qed.

Lemma DialingCodeToCountry_Some (code country : string) :
  DialingCodeToCountry !! code = Some country <->
  (code, country) ∈
    [ ("1", "US"); ("52", "MX"); ("34", "ES"); ("351", "PT"); ("44", "GB");
      ("33", "FR"); ("49", "DE"); ("39", "IT"); ("55", "BR") ].
Proof.
  unfold DialingCodeToCountry. symmetry. apply elem_of_list_to_map.
  apply (bool_decide_unpack _). by vm_compute.
Qed.

Lemma CountryPhoneLengths_Some (cc : string) (range : nat * nat) :
  CountryPhoneLengths !! cc = Some range <->
  (cc, range) ∈
    [ ("US", (10, 10)); ("CA", (10, 10)); ("MX", (10, 10)); ("ES", (9, 9));
      ("PT", (9, 9)); ("GB", (10, 11)); ("FR", (10, 10)); ("DE", (10, 12));
      ("IT", (9, 11)); ("BR", (10, 11)) ].
Proof.
  unfold CountryPhoneLengths. symmetry. apply elem_of_list_to_map.
  apply (bool_decide_unpack _). by vm_compute.
Qed.

Lemma CountryDialingCodes_Some (cc code : string) :
  CountryDialingCodes !! cc = Some code <->
  (cc, code) ∈
    [ ("US", "1"); ("CA", "1"); ("MX", "52"); ("ES", "34"); ("PT", "351");
      ("GB", "44"); ("FR", "33"); ("DE", "49"); ("IT", "39"); ("BR", "55") ].
Proof.
  unfold CountryDialingCodes. symmetry. apply elem_of_list_to_map.
  apply (bool_decide_unpack _). by vm_compute.
Qed.

End Tables.

Section TableKeys.

Lemma exists_key_DialingCodeToCountry (k : string) :
  exists_key DialingCodeToCountry k = case_of k dialingCodes.
Proof.
  destruct (case_of k dialingCodes) eqn:Hk.
  - apply case_of_true in Hk. unfold dialingCodes in Hk.
    cases_of_elem Hk; subst k; by vm_compute.
  - apply not_true_is_false. intros [v Hv]%exists_key_true.
    apply DialingCodeToCountry_Some in Hv.
    cases_of_elem Hv; injection Hv as -> _; by vm_compute in Hk.
Qed.

Lemma exists_key_CountryPhoneLengths (k : string) :
  exists_key CountryPhoneLengths k = case_of k supportedCountries.
Proof.
  destruct (case_of k supportedCountries) eqn:Hk.
  - apply case_of_true in Hk. unfold supportedCountries in Hk.
    cases_of_elem Hk; subst k; by vm_compute.
  - apply not_true_is_false. intros [v Hv]%exists_key_true.
    apply CountryPhoneLengths_Some in Hv.
    cases_of_elem Hv; injection Hv as -> _; by vm_compute in Hk.
Qed.

End TableKeys.

(** ** Dialing-code extraction *)

Section DialingCode.

Implicit Types (s c code rest : string) (n : nat).

Lemma known_code_length c : known_code c -> 1 <= String.length c <= 3.
Proof.
  intros [v Hv]. apply DialingCodeToCountry_Some in Hv.
  cases_of_elem Hv; injection Hv as -> _; simpl; lia.
Qed.

(** The test that [extractDialingCode] makes at each length. *)
Lemma known_prefix_probe n s :
  known_prefix n s <->
  (n <=? String.length s)
  && exists_key DialingCodeToCountry (slice_to s n) = true.
Proof.
  rewrite andb_true_iff, Nat.leb_le, exists_key_true. split.
  - intros (c & <- & Hp & Hc). split; [by apply HasPrefix_length|].
    by destruct (HasPrefix_slice _ _ Hp) as [-> _].
  - intros [Hn Hc]. exists (slice_to s n).
    split; [by apply length_slice_to|]. split; [by apply HasPrefix_slice_to|done].
Qed.

Lemma not_known_prefix_probe n s :
  ~ known_prefix n s <->
  (n <=? String.length s)
  && exists_key DialingCodeToCountry (slice_to s n) = false.
Proof. rewrite known_prefix_probe. apply not_true_iff_false. Qed.

Lemma known_prefix_dec n s : {known_prefix n s} + {~ known_prefix n s}.
Proof.
  destruct ((n <=? String.length s)
            && exists_key DialingCodeToCountry (slice_to s n)) eqn:E.
  - left. by apply known_prefix_probe.
  - right. by apply not_known_prefix_probe.
Qed.

Lemma extractDialingCode_3 s :
  known_prefix 3 s ->
  extractDialingCode s = Ok (slice_to s 3, slice_from s 3).
Proof.
  intros H3%known_prefix_probe. unfold extractDialingCode. by rewrite H3.
Qed.

Lemma extractDialingCode_2 s :
  ~ known_prefix 3 s -> known_prefix 2 s ->
  extractDialingCode s = Ok (slice_to s 2, slice_from s 2).
Proof.
  intros H3%not_known_prefix_probe H2%known_prefix_probe.
  unfold extractDialingCode. by rewrite H3, H2.
Qed.

Lemma extractDialingCode_1 s :
  ~ known_prefix 3 s -> ~ known_prefix 2 s -> known_prefix 1 s ->
  extractDialingCode s = Ok (slice_to s 1, slice_from s 1).
Proof.
  intros H3%not_known_prefix_probe H2%not_known_prefix_probe
         H1%known_prefix_probe.
  unfold extractDialingCode. by rewrite H3, H2, H1.
Qed.

Lemma extractDialingCode_none s :
  (forall c, known_code c -> strings.HasPrefix s c = false) ->
  extractDialingCode s = Err "unable to extract dialing code".
Proof.
  intros Hno.
  assert (forall n, ~ known_prefix n s) as Hn.
  { intros n (c & _ & Hp & Hc). rewrite (Hno c Hc) in Hp. done. }
  unfold extractDialingCode.
  by rewrite (proj1 (not_known_prefix_probe 3 s) (Hn 3)),
             (proj1 (not_known_prefix_probe 2 s) (Hn 2)),
             (proj1 (not_known_prefix_probe 1 s) (Hn 1)).
Qed.

(** Whatever [extractDialingCode] returns is a known code in front of the
    rest of the string. *)
Lemma extractDialingCode_Ok s code rest :
  extractDialingCode s = Ok (code, rest) ->
  s = code +:+ rest /\ known_code code.
Proof.
  unfold extractDialingCode.
  repeat case_match; try discriminate;
    intros Heq;
    match type of Heq with
    | Ok (?a, ?b) = _ =>
        assert (code = a /\ rest = b) as [-> ->] by (split; congruence)
    end;
    (split; [symmetry; apply slice_to_from|]);
    match goal with
    | H : _ && _ = true |- _ =>
        apply andb_true_iff in H as [_ H]; by apply exists_key_true in H
    end.
Qed.

(** [hasDialingCode]: some known code is a prefix, whatever the order in
    which the map is ranged over. *)
Lemma hasDialingCode_true s :
  hasDialingCode s = true <->
  exists c, known_code c /\ strings.HasPrefix s c = true.
Proof.
  unfold hasDialingCode. rewrite existsb_exists. split.
  - intros ([c v] & Hin & Hp). exists c. split; [|done].
    exists v. apply elem_of_map_to_list. by apply list_elem_of_In.
  - intros (c & [v Hv] & Hp). exists (c, v). split; [|done].
    apply list_elem_of_In. by apply elem_of_map_to_list.
Qed.

Lemma hasDialingCode_false s :
  hasDialingCode s = false <->
  forall c, known_code c -> strings.HasPrefix s c = false.
Proof.
  rewrite <- not_true_iff_false, hasDialingCode_true. split.
  - intros Hno c Hc. apply not_true_is_false. intros Hp. apply Hno. eauto.
  - intros Hno (c & Hc & Hp). rewrite (Hno c Hc) in Hp. done.
Qed.

End DialingCode.

(** C5.  Dialing-code extraction is longest-match-first.  Whenever the
    string starts with a known dialing code [c], [extractDialingCode]
    succeeds and returns a known code [code] in front of the rest of the
    string; [code] has 3 bytes if a 3-byte prefix is known, else 2 bytes if
    a 2-byte prefix is known, else 1 byte; so it is never shorter than [c],
    nor than any other known code the string starts with. *)
Theorem extractDialingCode_longest_match_first (s c : string) :
  known_code c ->
  strings.HasPrefix s c = true ->
  exists code rest,
    extractDialingCode s = Ok (code, rest) /\
    s = code +:+ rest /\
    known_code code /\
    (known_prefix 3 s -> String.length code = 3) /\
    (~ known_prefix 3 s -> known_prefix 2 s -> String.length code = 2) /\
    (~ known_prefix 3 s -> ~ known_prefix 2 s -> String.length code = 1) /\
    (forall c', known_code c' -> strings.HasPrefix s c' = true ->
                String.length c' <= String.length code).
Proof.
  intros Hc Hp.
  assert (forall c', known_code c' -> strings.HasPrefix s c' = true ->
                     known_prefix (String.length c') s) as Hkp.
  { intros c' Hc' Hp'. by exists c'. }
  assert (forall n, n <= String.length s ->
                    String.length (slice_to s n) = n) as Hlen.
  { intros n. apply length_slice_to. }
  destruct (known_prefix_dec 3 s) as [H3|H3];
    [|destruct (known_prefix_dec 2 s) as [H2|H2];
      [|destruct (known_prefix_dec 1 s) as [H1|H1]]].
  - exists (slice_to s 3), (slice_from s 3).
    pose proof H3 as (c3 & Hl3 & Hp3%HasPrefix_length & _).
    rewrite extractDialingCode_3 by done.
    destruct (extractDialingCode_Ok s _ _ (extractDialingCode_3 s H3)) as [? ?].
    rewrite Hlen by lia. repeat split; try done.
    intros c' Hc' _. apply known_code_length in Hc'. lia.
  - exists (slice_to s 2), (slice_from s 2).
    pose proof H2 as (c2 & Hl2 & Hp2%HasPrefix_length & _).
    rewrite extractDialingCode_2 by done.
    destruct (extractDialingCode_Ok s _ _ (extractDialingCode_2 s H3 H2)) as [? ?].
    rewrite Hlen by lia. repeat split; try done.
    intros c' Hc' Hp'. pose proof (Hkp c' Hc' Hp') as Hk.
    apply known_code_length in Hc'.
    destruct (decide (String.length c' = 3)) as [E|E]; [by rewrite E in Hk|lia].
  - exists (slice_to s 1), (slice_from s 1).
    pose proof H1 as (c1 & Hl1 & Hp1%HasPrefix_length & _).
    rewrite extractDialingCode_1 by done.
    destruct (extractDialingCode_Ok s _ _ (extractDialingCode_1 s H3 H2 H1)) as [? ?].
    rewrite Hlen by lia. repeat split; try done.
    intros c' Hc' Hp'. pose proof (Hkp c' Hc' Hp') as Hk.
    apply known_code_length in Hc'.
    destruct (decide (String.length c' = 3)) as [E|E]; [by rewrite E in Hk|].
    destruct (decide (String.length c' = 2)) as [E'|E']; [by rewrite E' in Hk|lia].
  - exfalso. pose proof (Hkp c Hc Hp) as Hk.
    apply known_code_length in Hc.
    destruct (decide (String.length c = 3)) as [E|E]; [by rewrite E in Hk|].
    destruct (decide (String.length c = 2)) as [E'|E']; [by rewrite E' in Hk|].
    destruct (decide (String.length c = 1)) as [E''|E'']; [by rewrite E'' in Hk|lia].
Qed.

Lemma extractDialingCode_longest_match_first_witness :
  exists code rest,
    extractDialingCode "351210942000" = Ok (code, rest) /\
    "351210942000" = code +:+ rest /\
    known_code code /\
    (known_prefix 3 "351210942000" -> String.length code = 3) /\
    (~ known_prefix 3 "351210942000" -> known_prefix 2 "351210942000" ->
     String.length code = 2) /\
    (~ known_prefix 3 "351210942000" -> ~ known_prefix 2 "351210942000" ->
     String.length code = 1) /\
    (forall c', known_code c' -> strings.HasPrefix "351210942000" c' = true ->
                String.length c' <= String.length code).
Proof.
  apply (extractDialingCode_longest_match_first "351210942000" "351").
  - exists "PT". vm_compute. reflexivity.
  - vm_compute. reflexivity.
Defined.

(** ** Splitting the national number *)

(** C6.  For a supported country the split cuts the national number after a
    fixed number of bytes: 3 for US, CA, MX and DE; 2 for ES, PT, FR, IT and
    BR; for GB 4 when the national number has at least 4 bytes and 3 when it
    has exactly 3; and with fewer than 3 bytes the area code is empty and the
    local number is the whole national number. *)
Theorem splitNationalNumber_prefix_lengths (nationalNumber countryCode : string) :
  countryCode ∈ supportedCountries ->
  exists areaCode localNumber,
    splitNationalNumber nationalNumber countryCode = (areaCode, localNumber) /\
    nationalNumber = areaCode +:+ localNumber /\
    (String.length nationalNumber < 3 ->
     areaCode = "" /\ localNumber = nationalNumber) /\
    (3 <= String.length nationalNumber ->
     countryCode ∈ ["US"; "CA"; "MX"; "DE"] -> String.length areaCode = 3) /\
    (3 <= String.length nationalNumber ->
     countryCode ∈ ["ES"; "PT"; "FR"; "IT"; "BR"] -> String.length areaCode = 2) /\
    (countryCode = "GB" -> 4 <= String.length nationalNumber ->
     String.length areaCode = 4) /\
    (countryCode = "GB" -> String.length nationalNumber = 3 ->
     String.length areaCode = 3).
Proof.
  intros Hcc. unfold supportedCountries in Hcc.
  cases_of_elem Hcc; subst countryCode; unfold splitNationalNumber;
    destruct (3 <=? String.length nationalNumber) eqn:H3;
    (apply Nat.leb_le in H3 || apply Nat.leb_gt in H3);
    destruct (4 <=? String.length nationalNumber) eqn:H4;
    (apply Nat.leb_le in H4 || apply Nat.leb_gt in H4);
    cbn [case_of existsb String.eqb Ascii.eqb Bool.eqb orb];
    eexists _, _; (split; [reflexivity|]);
    (split; [by rewrite ?slice_to_from|]);
    repeat split; try discriminate; try lia;
    intros; rewrite ?length_slice_to by lia; try lia;
    match goal with
    | H : _ ∈ _ |- _ => cases_of_elem H; discriminate
    end.
Qed.

Lemma splitNationalNumber_prefix_lengths_witness :
  exists areaCode localNumber,
    splitNationalNumber "2079460958" "GB" = (areaCode, localNumber) /\
    "2079460958" = areaCode +:+ localNumber /\
    (String.length "2079460958" < 3 ->
     areaCode = "" /\ localNumber = "2079460958") /\
    (3 <= String.length "2079460958" ->
     "GB" ∈ ["US"; "CA"; "MX"; "DE"] -> String.length areaCode = 3) /\
    (3 <= String.length "2079460958" ->
     "GB" ∈ ["ES"; "PT"; "FR"; "IT"; "BR"] -> String.length areaCode = 2) /\
    ("GB" = "GB" -> 4 <= String.length "2079460958" ->
     String.length areaCode = 4) /\
    ("GB" = "GB" -> String.length "2079460958" = 3 ->
     String.length areaCode = 3).
Proof.
  apply (splitNationalNumber_prefix_lengths "2079460958" "GB").
  apply list_elem_of_In. simpl. tauto.
Defined.

(** ** The spacing-pattern check *)

Section Spacing.

Lemma HasPrefix_space (c : ascii) (s : string) :
  strings.HasPrefix (String c s) " " = Ascii.eqb c " ".
Proof. simpl. apply andb_true_r. Qed.

(** Splitting on a space yields one part more than there are spaces. *)
Lemma length_Split_space (s : string) :
  length (strings.Split s " ") = S (count_byte " " s).
Proof.
  unfold strings.Split. induction s as [|c s IH]; [reflexivity|].
  cbn [strings.split_from count_byte]. rewrite HasPrefix_space.
  destruct (Ascii.eqb c " "); simpl.
  - by rewrite IH.
  - destruct (strings.split_from " " 0 s); simpl in *; lia.
Qed.

Lemma Contains_space (s : string) :
  strings.Contains s " " = negb (count_byte " " s =? 0).
Proof.
  induction s as [|c s IH]; [reflexivity|].
  cbn [strings.Contains count_byte]. rewrite HasPrefix_space, IH.
  by destruct (Ascii.eqb c " ").
Qed.

End Spacing.

(** C4.  A non-empty input that contains a space and splits on single
    spaces into exactly 4 parts is rejected with [invalid spacing pattern],
    whatever its bytes and whatever country code is supplied; it is never
    rejected for invalid characters. *)
Theorem four_parts_invalid_spacing (phoneNumber countryCode : string) :
  phoneNumber <> "" ->
  strings.Contains phoneNumber " " = true ->
  length (strings.Split phoneNumber " ") = 4 ->
  ValidatePhoneNumber phoneNumber countryCode = Err "invalid spacing pattern" /\
  ValidatePhoneNumber phoneNumber countryCode
  <> Err "phone number contains invalid characters".
Proof.
  intros Hne Hsp H4.
  assert (ValidatePhoneNumber phoneNumber countryCode
          = Err "invalid spacing pattern") as ->; [|done].
  unfold ValidatePhoneNumber, validateSpacing.
  destruct phoneNumber as [|c s]; [done|].
  rewrite eqb_empty_false, Hsp, H4. reflexivity.
Qed.

Lemma four_parts_invalid_spacing_witness :
  ValidatePhoneNumber "a b c d" "" = Err "invalid spacing pattern" /\
  ValidatePhoneNumber "a b c d" ""
  <> Err "phone number contains invalid characters".
Proof.
  apply (four_parts_invalid_spacing "a b c d" "").
  - discriminate.
  - vm_compute. reflexivity.
  - vm_compute. reflexivity.
Defined.

(** ** Length validation *)

(** What length validation decides on.  Once the presence, spacing,
    character, parsing and country-code steps have passed with resolved
    country [cc], whose range is [[lo, hi]], the call succeeds exactly when
    the number of bytes, [len], of area code and local number together lies
    in the range: inside it the response is returned, outside it the error
    is [phone number length is invalid for country cc]. *)
Theorem length_validation_decides
    (phoneNumber countryCode cleaned cc areaCode localNumber : string)
    (lo hi : nat) :
  phoneNumber <> "" ->
  validateSpacing phoneNumber = None ->
  cleanPhoneNumber phoneNumber = Ok cleaned ->
  parsePhoneNumber cleaned countryCode = Ok (cc, areaCode, localNumber) ->
  validateCountryCode cc = None ->
  CountryPhoneLengths !! cc = Some (lo, hi) ->
  let bytes := String.length (areaCode +:+ localNumber) in
  (lo <= bytes <= hi ->
   ValidatePhoneNumber phoneNumber countryCode
   = Ok {| PhoneNumber := formatPhoneNumber cc areaCode localNumber;
           CountryCode := cc;
           AreaCode := areaCode;
           LocalPhoneNumber := localNumber |}) /\
  (~ lo <= bytes <= hi ->
   ValidatePhoneNumber phoneNumber countryCode
   = Err ("phone number length is invalid for country " +:+ cc)) /\
  ((exists r, ValidatePhoneNumber phoneNumber countryCode = Ok r)
   <-> lo <= bytes <= hi).
Proof.
  intros Hne Hsp Hcl Hparse Hcc Hrange bytes.
  assert (ValidatePhoneNumber phoneNumber countryCode
          = match validatePhoneLength (areaCode +:+ localNumber) cc with
            | Some err => Err err
            | None => Ok {| PhoneNumber := formatPhoneNumber cc areaCode localNumber;
                            CountryCode := cc;
                            AreaCode := areaCode;
                            LocalPhoneNumber := localNumber |}
            end) as ->.
  { unfold ValidatePhoneNumber. destruct phoneNumber as [|c s]; [done|].
    by rewrite eqb_empty_false, Hsp, Hcl, Hparse, Hcc. }
  unfold validatePhoneLength. rewrite Hrange. fold bytes.
  destruct (bytes <? lo) eqn:Hlo; [apply Nat.ltb_lt in Hlo | apply Nat.ltb_ge in Hlo];
    (destruct (hi <? bytes) eqn:Hhi;
     [apply Nat.ltb_lt in Hhi | apply Nat.ltb_ge in Hhi]); simpl;
    (split; [intros ?; (reflexivity || lia)|]);
    (split; [intros ?; (reflexivity || lia)|]);
    (split; [intros [r Hr]; (discriminate || lia) | intros ?; (lia || eauto)]).
Qed.

Lemma length_validation_decides_witness :
  ValidatePhoneNumber "+1212569" ""
  = Err "phone number length is invalid for country US".
Proof.
  refine (proj1 (proj2 (length_validation_decides
            "+1212569" "" "+1212569" "US" "212" "569" 10 10 _ _ _ _ _ _)) _).
  - discriminate.
  - vm_compute. reflexivity.
  - vm_compute. reflexivity.
  - vm_compute. reflexivity.
  - vm_compute. reflexivity.
  - vm_compute. reflexivity.
  - vm_compute. lia.
Defined.

Section DigitCount.

Implicit Types (s : string).

Lemma digit_count_le_length s : digit_count s <= String.length s.
Proof.
  induction s as [|c s IH]; [done|]. simpl.
  destruct (regexp.perl_d c); lia.
Qed.

Lemma digit_count_all_digits s :
  regexp.all_bytes regexp.perl_d s = true ->
  digit_count s = String.length s.
Proof.
  induction s as [|c s IH]; [done|]. simpl.
  intros [-> Hs]%andb_true_iff. by rewrite IH.
Qed.

(** On a national number made of digits only, bytes are digits and length
    validation decides on the digit count. *)
Lemma length_validation_on_digits
    (phoneNumber countryCode cleaned cc areaCode localNumber : string)
    (lo hi : nat) :
  phoneNumber <> "" ->
  validateSpacing phoneNumber = None ->
  cleanPhoneNumber phoneNumber = Ok cleaned ->
  parsePhoneNumber cleaned countryCode = Ok (cc, areaCode, localNumber) ->
  validateCountryCode cc = None ->
  CountryPhoneLengths !! cc = Some (lo, hi) ->
  regexp.all_bytes regexp.perl_d (areaCode +:+ localNumber) = true ->
  ((exists r, ValidatePhoneNumber phoneNumber countryCode = Ok r)
   <-> lo <= digit_count (areaCode +:+ localNumber) <= hi) /\
  (~ lo <= digit_count (areaCode +:+ localNumber) <= hi ->
   ValidatePhoneNumber phoneNumber countryCode
   = Err ("phone number length is invalid for country " +:+ cc)).
Proof.
  intros Hne Hsp Hcl Hparse Hcc Hrange Hdigits.
  rewrite (digit_count_all_digits _ Hdigits).
  destruct (length_validation_decides _ _ _ _ _ _ _ _
              Hne Hsp Hcl Hparse Hcc Hrange) as (_ & Herr & Hiff).
  by split.
Qed.

End DigitCount.

(** C7, at an input whose national number holds a plus sign: ES takes
    exactly 9 digits, the area code and local number returned here hold 8,
    yet the call succeeds, because length validation counts the 9 bytes. *)
Theorem plus_sign_counted_as_digit :
  ValidatePhoneNumber "34915872+00" ""
  = Ok {| PhoneNumber := "+34915872+00";
          CountryCode := "ES";
          AreaCode := "91";
          LocalPhoneNumber := "5872+00" |} /\
  CountryPhoneLengths !! "ES" = Some (9, 9) /\
  digit_count ("91" +:+ "5872+00") = 8 /\
  String.length ("91" +:+ "5872+00") = 9.
Proof. repeat split; vm_compute; reflexivity. Qed.

(** The tab of the character class is counted in the same way: US takes
    exactly 10 digits and this call succeeds with 9. *)
Example tab_counted_as_digit :
  (exists r, ValidatePhoneNumber ("+1212" +:+ String "009" "569012") "" = Ok r /\
             CountryCode r = "US" /\
             digit_count (AreaCode r +:+ LocalPhoneNumber r) = 9) /\
  CountryPhoneLengths !! "US" = Some (10, 10).
Proof.
  split; [|by vm_compute].
  eexists. split; [vm_compute; reflexivity|]. split; by vm_compute.
Qed.

(** ** The supplied country code *)

(** C8.  The supplied country code is compared byte for byte with the keys
    of the table: on a number without [+] and without a detectable dialing
    code, a supplied code of 2 bytes that is not one of the ten supported
    codes, for instance a lower-case spelling, is rejected with
    [unsupported country code]. *)
Theorem supplied_country_code_case_sensitive
    (phoneNumber countryCode cleaned : string) :
  phoneNumber <> "" ->
  validateSpacing phoneNumber = None ->
  cleanPhoneNumber phoneNumber = Ok cleaned ->
  strings.HasPrefix cleaned "+" = false ->
  hasDialingCode cleaned = false ->
  String.length countryCode = 2 ->
  countryCode ∉ supportedCountries ->
  ValidatePhoneNumber phoneNumber countryCode = Err "unsupported country code".
Proof.
  intros Hne Hsp Hcl Hplus Hdial Hlen Hnot.
  unfold ValidatePhoneNumber. destruct phoneNumber as [|c s]; [done|].
  rewrite eqb_empty_false, Hsp, Hcl.
  unfold parsePhoneNumber. rewrite Hplus, Hdial. cbn [orb].
  destruct countryCode as [|c1 cc']; [discriminate|].
  rewrite eqb_empty_false.
  destruct (splitNationalNumber cleaned (String c1 cc')) as [areaCode localNumber].
  unfold validateCountryCode. rewrite Hlen. cbn [Nat.eqb negb].
  rewrite exists_key_CountryPhoneLengths.
  destruct (case_of (String c1 cc') supportedCountries) eqn:Hin; [|reflexivity].
  by apply case_of_true in Hin.
Qed.

Lemma supplied_country_code_case_sensitive_witness :
  ValidatePhoneNumber "2125690123" "us" = Err "unsupported country code".
Proof.
  apply (supplied_country_code_case_sensitive "2125690123" "us" "2125690123").
  - discriminate.
  - vm_compute. reflexivity.
  - vm_compute. reflexivity.
  - vm_compute. reflexivity.
  - vm_compute. reflexivity.
  - vm_compute. reflexivity.
  - intros Hin. unfold supportedCountries in Hin. cases_of_elem Hin; discriminate.
Defined.

(** ** The errors of the pipeline *)

Section Errors.

Implicit Types (s phoneNumber countryCode msg : string).

Lemma extractDialingCode_Err s msg :
  extractDialingCode s = Err msg -> msg = "unable to extract dialing code".
Proof. unfold extractDialingCode. repeat case_match; congruence. Qed.

(** The lookup that follows a successful extraction cannot miss: the
    branch that reports [unsupported country dialing code] is dead. *)
Lemma parsePhoneNumber_Err s countryCode msg :
  parsePhoneNumber s countryCode = Err msg ->
  msg = "unable to extract dialing code" \/
  msg = "countryCode is required for numbers without country code".
Proof.
  unfold parsePhoneNumber. cbv zeta.
  destruct (_ || _).
  - destruct (extractDialingCode _) as [[code rest]|msg'] eqn:He.
    + destruct (extractDialingCode_Ok _ _ _ He) as [_ [country Hc]].
      rewrite Hc. destruct (splitNationalNumber rest country). discriminate.
    + apply extractDialingCode_Err in He. intros [= <-]. by left.
  - destruct (String.eqb countryCode "").
    + intros [= <-]. by right.
    + destruct (splitNationalNumber _ _). discriminate.
Qed.

Lemma validateSpacing_Some s msg :
  validateSpacing s = Some msg -> msg = "invalid spacing pattern".
Proof. unfold validateSpacing. repeat case_match; congruence. Qed.

Lemma cleanPhoneNumber_Err s msg :
  cleanPhoneNumber s = Err msg ->
  msg = "phone number contains invalid characters".
Proof. unfold cleanPhoneNumber. case_match; congruence. Qed.

Lemma validateCountryCode_Some countryCode msg :
  validateCountryCode countryCode = Some msg ->
  msg = "country code must be 2 characters (ISO 3166-1 alpha-2)" \/
  msg = "unsupported country code".
Proof.
  unfold validateCountryCode. repeat case_match; intros [= <-]; auto.
Qed.

Lemma validateCountryCode_None countryCode :
  validateCountryCode countryCode = None <-> countryCode ∈ supportedCountries.
Proof.
  unfold validateCountryCode.
  rewrite exists_key_CountryPhoneLengths, <- case_of_true. split.
  - repeat case_match; try discriminate. intros _.
    by destruct (case_of countryCode supportedCountries).
  - intros Hin. pose proof Hin as Hin'%case_of_true.
    rewrite Hin. unfold supportedCountries in Hin'.
    by cases_of_elem Hin'; subst countryCode.
Qed.

Lemma validatePhoneLength_Some s countryCode msg :
  countryCode ∈ supportedCountries ->
  validatePhoneLength s countryCode = Some msg ->
  msg = "phone number length is invalid for country " +:+ countryCode.
Proof.
  intros Hin. unfold validatePhoneLength.
  destruct (CountryPhoneLengths !! countryCode) as [[lo hi]|] eqn:Hr.
  - case_match; congruence.
  - apply case_of_true in Hin.
    rewrite <- exists_key_CountryPhoneLengths in Hin.
    apply exists_key_true in Hin as [r Hr']. congruence.
Qed.

(** The messages that [ValidatePhoneNumber] can return. *)
Lemma ValidatePhoneNumber_Err phoneNumber countryCode msg :
  ValidatePhoneNumber phoneNumber countryCode = Err msg ->
  msg ∈ [ "phoneNumber is required";
          "invalid spacing pattern";
          "phone number contains invalid characters";
          "unable to extract dialing code";
          "countryCode is required for numbers without country code";
          "country code must be 2 characters (ISO 3166-1 alpha-2)";
          "unsupported country code" ] \/
  exists cc, cc ∈ supportedCountries /\
             msg = "phone number length is invalid for country " +:+ cc.
Proof.
  unfold ValidatePhoneNumber.
  destruct (String.eqb phoneNumber "");
    [intros [= <-]; left; set_solver|].
  destruct (validateSpacing phoneNumber) as [e|] eqn:Hsp;
    [apply validateSpacing_Some in Hsp as ->; intros [= <-]; left; set_solver|].
  destruct (cleanPhoneNumber phoneNumber) as [cleaned|e] eqn:Hcl;
    [|apply cleanPhoneNumber_Err in Hcl as ->; intros [= <-]; left; set_solver].
  destruct (parsePhoneNumber cleaned countryCode)
    as [[[cc areaCode] localNumber]|e] eqn:Hp;
    [|apply parsePhoneNumber_Err in Hp as [-> | ->]; intros [= <-];
      left; set_solver].
  destruct (validateCountryCode cc) as [e|] eqn:Hcc;
    [apply validateCountryCode_Some in Hcc as [-> | ->]; intros [= <-];
     left; set_solver|].
  apply validateCountryCode_None in Hcc.
  destruct (validatePhoneLength _ cc) as [e|] eqn:Hlen; [|discriminate].
  apply validatePhoneLength_Some in Hlen as ->; [|done].
  intros [= <-]. right. eauto.
Qed.

(** No input makes the validator answer [unsupported country dialing code]. *)
Lemma unsupported_dialing_code_unreachable phoneNumber countryCode :
  ValidatePhoneNumber phoneNumber countryCode
  <> Err "unsupported country dialing code".
Proof.
  intros [Hin | (cc & _ & Hcc)]%ValidatePhoneNumber_Err.
  - cases_of_elem Hin; discriminate.
  - rewrite append_cons in Hcc. discriminate.
Qed.

(** After a [+], digits that start with no known dialing code stop the
    call in [extractDialingCode], with that function's own message. *)
Lemma plus_unknown_dialing_code phoneNumber countryCode rest :
  phoneNumber <> "" ->
  validateSpacing phoneNumber = None ->
  cleanPhoneNumber phoneNumber = Ok ("+" +:+ rest) ->
  (forall c, known_code c -> strings.HasPrefix rest c = false) ->
  ValidatePhoneNumber phoneNumber countryCode
  = Err "unable to extract dialing code".
Proof.
  intros Hne Hsp Hcl Hno.
  unfold ValidatePhoneNumber. destruct phoneNumber as [|c s]; [done|].
  rewrite eqb_empty_false, Hsp, Hcl.
  unfold parsePhoneNumber. rewrite append_cons, append_nil_l.
  cbn [strings.HasPrefix Ascii.eqb Bool.eqb andb orb slice_from]. by rewrite (extractDialingCode_none rest Hno).
Qed.

End Errors.

(** C2, at an input with a [+] and an unknown dialing code: the call fails
    in [extractDialingCode], with [unable to extract dialing code], and not
    with [unsupported country dialing code]. *)
Theorem unknown_dialing_code_message :
  ValidatePhoneNumber "+999123456" "" = Err "unable to extract dialing code".
Proof. vm_compute. reflexivity. Qed.

(** ** Character validation *)

Section Characters.

Implicit Types (s phoneNumber countryCode : string) (c : ascii).

Lemma digit_space_plus_in_class c :
  digit_space_plus c = true -> regexp.validChars_class c = true.
Proof.
  unfold digit_space_plus, regexp.validChars_class, regexp.perl_s.
  destruct (regexp.perl_d c), (Ascii.eqb c " "), (Ascii.eqb c "+");
    simpl; rewrite ?orb_true_r; done.
Qed.

Lemma all_bytes_impl (p q : ascii -> bool) s :
  (forall c, p c = true -> q c = true) ->
  regexp.all_bytes p s = true -> regexp.all_bytes q s = true.
Proof.
  intros Hpq. induction s as [|c s IH]; [done|]. simpl.
  rewrite !andb_true_iff. intros [Hc Hs]. auto.
Qed.

(** What the code does: the call is rejected for invalid characters
    exactly when some byte lies outside the class [[\d\s+]] of the
    pattern, which holds the digits, the plus sign, the space and four
    more white-space bytes (tab, line feed, form feed, carriage return). *)
Lemma invalid_characters_iff phoneNumber countryCode :
  phoneNumber <> "" ->
  validateSpacing phoneNumber = None ->
  ValidatePhoneNumber phoneNumber countryCode
  = Err "phone number contains invalid characters"
  <-> regexp.all_bytes regexp.validChars_class phoneNumber = false.
Proof.
  intros Hne Hsp. unfold ValidatePhoneNumber.
  destruct phoneNumber as [|c s]; [done|].
  rewrite eqb_empty_false, Hsp.
  unfold cleanPhoneNumber, regexp.validChars_MatchString.
  rewrite eqb_empty_false. cbn [negb andb].
  destruct (regexp.all_bytes _ _); cbn [negb]; [|done].
  split; [|done].
  destruct (parsePhoneNumber _ countryCode)
    as [[[cc areaCode] localNumber]|e] eqn:Hp.
  - destruct (validateCountryCode cc) as [e|] eqn:Hcc.
    + apply validateCountryCode_Some in Hcc as [-> | ->]; discriminate.
    + apply validateCountryCode_None in Hcc.
      destruct (validatePhoneLength _ cc) as [e|] eqn:Hlen; [|discriminate].
      apply validatePhoneLength_Some in Hlen as ->; [|done].
      rewrite append_cons. discriminate.
  - apply parsePhoneNumber_Err in Hp as [-> | ->]; discriminate.
Qed.

(** The part of C3 that holds: digits, spaces and plus signs alone, the
    plus sign at any place, are never rejected for invalid characters. *)
Lemma digits_spaces_plus_accepted phoneNumber countryCode :
  regexp.all_bytes digit_space_plus phoneNumber = true ->
  ValidatePhoneNumber phoneNumber countryCode
  <> Err "phone number contains invalid characters".
Proof.
  intros Hall Herr.
  destruct phoneNumber as [|c s]; [discriminate|].
  destruct (validateSpacing (String c s)) as [e|] eqn:Hsp.
  - unfold ValidatePhoneNumber in Herr. rewrite eqb_empty_false, Hsp in Herr.
    apply validateSpacing_Some in Hsp as ->. discriminate.
  - apply invalid_characters_iff in Herr; [|done..].
    apply (all_bytes_impl _ _ _ digit_space_plus_in_class) in Hall.
    congruence.
Qed.

End Characters.

(** C3, at an input with a tab among the digits: the tab is neither a digit
    nor a space nor a plus sign, yet the call is not rejected for invalid
    characters; it succeeds and the tab reaches the local number and the
    formatted number. *)
Theorem tab_not_rejected :
  ValidatePhoneNumber ("+1212" +:+ String "009" "569012") ""
  = Ok {| PhoneNumber := "+1212" +:+ String "009" "569012";
          CountryCode := "US";
          AreaCode := "212";
          LocalPhoneNumber := String "009" "569012" |}.
Proof. vm_compute. reflexivity. Qed.

(** ** Normalization and the formatted number *)

Section Canonical.

Implicit Types (s t national : string) (c : ascii).

Lemma append_assoc s t u : (s +:+ t) +:+ u = s +:+ (t +:+ u).
Proof.
  induction s as [|c s IH]; [reflexivity|].
  rewrite !append_cons. by rewrite IH.
Qed.

Lemma count_byte_append c s t :
  count_byte c (s +:+ t) = count_byte c s + count_byte c t.
Proof.
  induction s as [|c' s IH]; [reflexivity|].
  rewrite append_cons. simpl. rewrite IH. lia.
Qed.

Lemma all_bytes_append (p : ascii -> bool) s t :
  regexp.all_bytes p (s +:+ t) = regexp.all_bytes p s && regexp.all_bytes p t.
Proof.
  induction s as [|c s IH]; [reflexivity|].
  rewrite append_cons. simpl. by rewrite IH, andb_assoc.
Qed.

(** [ReplaceAll(s, " ", "")] leaves no space and keeps the other bytes. *)
Lemma ReplaceAll_space_count s :
  count_byte " " (strings.ReplaceAll s " " "") = 0.
Proof.
  unfold strings.ReplaceAll. induction s as [|c s IH]; [reflexivity|].
  cbn [strings.replace_from]. rewrite HasPrefix_space.
  destruct (Ascii.eqb c " ") eqn:Hc; [exact IH|].
  cbn [count_byte]. by rewrite Hc, IH.
Qed.

Lemma ReplaceAll_space_all_bytes (p : ascii -> bool) s :
  regexp.all_bytes p s = true ->
  regexp.all_bytes p (strings.ReplaceAll s " " "") = true.
Proof.
  unfold strings.ReplaceAll. induction s as [|c s IH]; [done|].
  cbn [strings.replace_from regexp.all_bytes]. rewrite HasPrefix_space.
  intros [Hc Hs]%andb_true_iff.
  destruct (Ascii.eqb c " "); [by apply IH|].
  cbn [regexp.all_bytes]. by rewrite Hc, IH.
Qed.

Lemma ReplaceAll_space_id s :
  count_byte " " s = 0 -> strings.ReplaceAll s " " "" = s.
Proof.
  unfold strings.ReplaceAll. induction s as [|c s IH]; [done|].
  cbn [strings.replace_from count_byte]. rewrite HasPrefix_space.
  destruct (Ascii.eqb c " "); [discriminate|].
  intros Hs. by rewrite IH.
Qed.

Lemma validateSpacing_no_space s :
  count_byte " " s = 0 -> validateSpacing s = None.
Proof.
  intros Hs. unfold validateSpacing. by rewrite Contains_space, Hs.
Qed.

Lemma cleanPhoneNumber_Ok s cleaned :
  cleanPhoneNumber s = Ok cleaned ->
  count_byte " " cleaned = 0 /\
  regexp.all_bytes regexp.validChars_class cleaned = true.
Proof.
  unfold cleanPhoneNumber, regexp.validChars_MatchString.
  destruct (negb (String.eqb s "")); [|discriminate].
  destruct (regexp.all_bytes _ s) eqn:Hall; [|discriminate].
  intros [= <-]. split.
  - apply ReplaceAll_space_count.
  - by apply ReplaceAll_space_all_bytes.
Qed.

Lemma cleanPhoneNumber_clean c s :
  count_byte " " (String c s) = 0 ->
  regexp.all_bytes regexp.validChars_class (String c s) = true ->
  cleanPhoneNumber (String c s) = Ok (String c s).
Proof.
  intros Hsp Hall. unfold cleanPhoneNumber, regexp.validChars_MatchString.
  rewrite eqb_empty_false, Hall. cbn [negb andb].
  by rewrite ReplaceAll_space_id.
Qed.

Lemma splitNationalNumber_append national countryCode areaCode localNumber :
  splitNationalNumber national countryCode = (areaCode, localNumber) ->
  areaCode +:+ localNumber = national.
Proof.
  unfold splitNationalNumber. intros Heq.
  repeat case_match;
    match type of Heq with
    | (?a, ?b) = _ =>
        assert (areaCode = a /\ localNumber = b) as [-> ->]
          by (split; congruence)
    end;
    first [apply slice_to_from | reflexivity].
Qed.

(** The national number that [parsePhoneNumber] splits is the end of the
    cleaned string. *)
Lemma parsePhoneNumber_Ok cleaned countryCode cc areaCode localNumber :
  parsePhoneNumber cleaned countryCode = Ok (cc, areaCode, localNumber) ->
  exists front national,
    cleaned = front +:+ national /\
    splitNationalNumber national cc = (areaCode, localNumber).
Proof.
  unfold parsePhoneNumber. cbv zeta.
  set (p := if strings.HasPrefix cleaned "+"
            then slice_from cleaned 1 else cleaned).
  assert (exists front, cleaned = front +:+ p) as [front Hfront].
  { subst p. destruct (strings.HasPrefix cleaned "+").
    - exists (slice_to cleaned 1). symmetry. apply slice_to_from.
    - by exists "". }
  destruct (_ || _).
  - destruct (extractDialingCode p) as [[code rest]|msg] eqn:He; [|discriminate].
    apply extractDialingCode_Ok in He as [Hp _].
    destruct (DialingCodeToCountry !! code) as [country|]; [|discriminate].
    destruct (splitNationalNumber rest country) as [a l] eqn:Hs.
    intros [= <- <- <-]. exists (front +:+ code), rest.
    split; [|done]. by rewrite append_assoc, <- Hp.
  - destruct (String.eqb countryCode ""); [discriminate|].
    destruct (splitNationalNumber p countryCode) as [a l] eqn:Hs.
    intros [= <- <- <-]. by exists front, p.
Qed.

(** Reversing the dialing-code lookup: in front of a national number of
    at least two bytes, a known code is extracted again as it is. *)
Lemma extractDialingCode_code_append code country national :
  DialingCodeToCountry !! code = Some country ->
  2 <= String.length national ->
  extractDialingCode (code +:+ national) = Ok (code, national).
Proof.
  intros Hc%DialingCodeToCountry_Some Hlen.
  destruct national as [|a [|b rest]]; simpl in Hlen; [lia..|].
  unfold extractDialingCode. rewrite !exists_key_DialingCodeToCountry.
  cases_of_elem Hc; injection Hc as -> _; vm_compute; reflexivity.
Qed.

End Canonical.

(** ** Validating the formatted number again *)

Section RoundTrip.

Implicit Types (phoneNumber countryCode national code country : string).

Lemma validatePhoneLength_None national countryCode :
  validatePhoneLength national countryCode = None ->
  countryCode ∈ supportedCountries /\ 9 <= String.length national.
Proof.
  unfold validatePhoneLength.
  destruct (CountryPhoneLengths !! countryCode) as [[lo hi]|] eqn:Hr;
    [|discriminate].
  destruct (_ || _) eqn:Hb; [discriminate|]. intros _.
  apply orb_false_iff in Hb as [Hlo%Nat.ltb_ge Hhi%Nat.ltb_ge].
  split.
  - apply case_of_true. rewrite <- exists_key_CountryPhoneLengths.
    apply exists_key_true. eauto.
  - apply CountryPhoneLengths_Some in Hr.
    cases_of_elem Hr; injection Hr as _ -> _; lia.
Qed.

Lemma dialing_code_bytes code country :
  DialingCodeToCountry !! code = Some country ->
  count_byte " " code = 0 /\
  regexp.all_bytes regexp.validChars_class code = true /\
  CountryDialingCodes !! country = Some code.
Proof.
  intros Hc%DialingCodeToCountry_Some.
  cases_of_elem Hc; injection Hc as -> ->; by vm_compute.
Qed.

(** A supported country's dialing code leads back, through the reverse
    table, to a country with the same length range and the same split:
    the country itself, except that CA leads to US. *)
Lemma dialing_code_owner countryCode :
  countryCode ∈ supportedCountries ->
  exists code owner,
    CountryDialingCodes !! countryCode = Some code /\
    DialingCodeToCountry !! code = Some owner /\
    CountryPhoneLengths !! owner = CountryPhoneLengths !! countryCode /\
    (forall national,
       splitNationalNumber national owner
       = splitNationalNumber national countryCode) /\
    (countryCode <> "CA" -> owner = countryCode) /\
    (countryCode = "CA" -> owner = "US").
Proof.
  intros Hin. unfold supportedCountries in Hin.
  cases_of_elem Hin; subst countryCode;
    [ exists "1", "US" | exists "1", "US" | exists "52", "MX"
    | exists "34", "ES" | exists "351", "PT" | exists "44", "GB"
    | exists "33", "FR" | exists "49", "DE" | exists "39", "IT"
    | exists "55", "BR" ];
    (split; [by vm_compute|]); (split; [by vm_compute|]);
    (split; [by vm_compute|]); (split; [reflexivity|]); split; done.
Qed.

Lemma revalidate_formatted code country national areaCode localNumber :
  DialingCodeToCountry !! code = Some country ->
  count_byte " " national = 0 ->
  regexp.all_bytes regexp.validChars_class national = true ->
  validatePhoneLength national country = None ->
  splitNationalNumber national country = (areaCode, localNumber) ->
  ValidatePhoneNumber ("+" +:+ code +:+ national) ""
  = Ok {| PhoneNumber := "+" +:+ code +:+ national;
          CountryCode := country;
          AreaCode := areaCode;
          LocalPhoneNumber := localNumber |}.
Proof.
  intros Hc Hsp Hall Hlen Hsplit.
  destruct (validatePhoneLength_None _ _ Hlen) as [Hin H9].
  destruct (dialing_code_bytes _ _ Hc) as (Hcsp & Hcall & Hdial).
  pose proof (splitNationalNumber_append _ _ _ _ Hsplit) as Happ.
  rewrite (append_cons "+" ""), append_nil_l.
  unfold ValidatePhoneNumber. rewrite eqb_empty_false.
  rewrite validateSpacing_no_space;
    [|cbn [count_byte Ascii.eqb Bool.eqb];
      by rewrite count_byte_append, Hcsp, Hsp].
  rewrite cleanPhoneNumber_clean;
    [|cbn [count_byte Ascii.eqb Bool.eqb];
      by rewrite count_byte_append, Hcsp, Hsp
     |cbn [regexp.all_bytes]; rewrite all_bytes_append, Hcall, Hall;
      by vm_compute].
  unfold parsePhoneNumber.
  cbn [strings.HasPrefix Ascii.eqb Bool.eqb andb orb slice_from].
  rewrite (extractDialingCode_code_append _ _ _ Hc) by lia.
  rewrite Hc, Hsplit.
  apply validateCountryCode_None in Hin. rewrite Hin.
  rewrite Happ, Hlen. unfold formatPhoneNumber, index_or_zero.
  rewrite Hdial. cbn [default]. by rewrite Happ.
Qed.

End RoundTrip.

(** C1, with CA set apart.  Whenever a call succeeds, its formatted number is [+],
    the dialing code of the resolved country, the area code and the local
    number; validating that string again with no supplied country code
    succeeds and gives the same formatted number, area code and local
    number, and the same country unless the resolved country is CA, whose
    formatted number is read back as US. *)
Theorem formatted_number_roundtrip
    (phoneNumber countryCode : string) (r : PhoneValidationResponse) :
  ValidatePhoneNumber phoneNumber countryCode = Ok r ->
  PhoneNumber r
  = "+" +:+ index_or_zero CountryDialingCodes (CountryCode r)
        +:+ AreaCode r +:+ LocalPhoneNumber r /\
  exists r',
    ValidatePhoneNumber (PhoneNumber r) "" = Ok r' /\
    PhoneNumber r' = PhoneNumber r /\
    AreaCode r' = AreaCode r /\
    LocalPhoneNumber r' = LocalPhoneNumber r /\
    (CountryCode r <> "CA" -> CountryCode r' = CountryCode r) /\
    (CountryCode r = "CA" -> CountryCode r' = "US").
Proof.
  unfold ValidatePhoneNumber.
  destruct (String.eqb phoneNumber ""); [discriminate|].
  destruct (validateSpacing phoneNumber); [discriminate|].
  destruct (cleanPhoneNumber phoneNumber) as [cleaned|] eqn:Hcl; [|discriminate].
  destruct (parsePhoneNumber cleaned countryCode)
    as [[[cc areaCode] localNumber]|] eqn:Hp; [|discriminate].
  destruct (validateCountryCode cc) eqn:Hcc; [discriminate|].
  destruct (validatePhoneLength _ cc) eqn:Hlen; [discriminate|].
  intros [= <-]. cbn [PhoneNumber CountryCode AreaCode LocalPhoneNumber].
  split; [reflexivity|].
  apply validateCountryCode_None in Hcc.
  apply cleanPhoneNumber_Ok in Hcl as [Hsp Hall].
  apply parsePhoneNumber_Ok in Hp as (front & national & -> & Hsplit).
  rewrite count_byte_append in Hsp.
  rewrite all_bytes_append in Hall. apply andb_true_iff in Hall as [_ Hall].
  pose proof (splitNationalNumber_append _ _ _ _ Hsplit) as Happ.
  destruct (dialing_code_owner cc Hcc)
    as (code & owner & Hdial & Hown & Hrange & Hsame & Hne & Hca).
  unfold formatPhoneNumber, index_or_zero. rewrite Hdial. cbn [default].
  rewrite Happ.
  eexists. split.
  - apply (revalidate_formatted code owner national areaCode localNumber);
      [done | lia | done | | by rewrite Hsame].
    rewrite <- Happ. unfold validatePhoneLength in *. rewrite Hrange.
    destruct (CountryPhoneLengths !! cc) as [[lo hi]|]; [|done].
    by destruct (_ || _).
  - cbn [PhoneNumber CountryCode AreaCode LocalPhoneNumber]. auto.
Qed.

Lemma formatted_number_roundtrip_witness :
  exists r',
    ValidatePhoneNumber "+34915872200" "" = Ok r' /\
    PhoneNumber r' = "+34915872200" /\
    AreaCode r' = "91" /\
    LocalPhoneNumber r' = "5872200" /\
    ("ES" <> "CA" -> CountryCode r' = "ES") /\
    ("ES" = "CA" -> CountryCode r' = "US").
Proof.
  refine (proj2 (formatted_number_roundtrip "34 915 872200" ""
            {| PhoneNumber := "+34915872200"; CountryCode := "ES";
               AreaCode := "91"; LocalPhoneNumber := "5872200" |} _)).
  vm_compute. reflexivity.
Defined.

(** C1 with the country included fails for CA: the formatted number of a
    CA call starts with the dialing code 1, which the reverse table gives
    to US. *)
Lemma roundtrip_claim_fails_for_CA : ~ roundtrip_claim "2125690123" "CA".
Proof.
  intros Hclaim.
  destruct (Hclaim {| PhoneNumber := "+12125690123"; CountryCode := "CA";
                      AreaCode := "212"; LocalPhoneNumber := "5690123" |})
    as (_ & r' & Hr' & Hcc & _); [by vm_compute|].
  cbn [PhoneNumber CountryCode] in Hr', Hcc.
  assert (ValidatePhoneNumber "+12125690123" ""
          = Ok {| PhoneNumber := "+12125690123"; CountryCode := "US";
                  AreaCode := "212"; LocalPhoneNumber := "5690123" |}) as Hus
    by (by vm_compute).
  rewrite Hus in Hr'. injection Hr' as <-. discriminate.
Qed.

(** ** Further properties of the validator *)

Section Pipeline.

Implicit Types (s phoneNumber countryCode cleaned national : string).

Lemma extractDialingCode_Err_no_prefix s msg :
  extractDialingCode s = Err msg ->
  forall c, known_code c -> strings.HasPrefix s c = false.
Proof.
  unfold extractDialingCode.
  destruct (_ && _) eqn:H3; [discriminate|].
  destruct ((2 <=? _) && _) eqn:H2; [discriminate|].
  destruct ((1 <=? _) && _) eqn:H1; [discriminate|].
  intros _ c Hc. apply not_true_is_false. intros Hp.
  assert (known_prefix (String.length c) s) as Hk by (by exists c).
  apply not_known_prefix_probe in H3, H2, H1.
  apply known_code_length in Hc.
  destruct (decide (String.length c = 3)) as [E|E]; [by rewrite E in Hk|].
  destruct (decide (String.length c = 2)) as [E'|E']; [by rewrite E' in Hk|].
  destruct (decide (String.length c = 1)) as [E''|E'']; [by rewrite E'' in Hk|lia].
Qed.

(** What a successful call went through. *)
Lemma ValidatePhoneNumber_Ok_inv phoneNumber countryCode r :
  ValidatePhoneNumber phoneNumber countryCode = Ok r ->
  exists cleaned front national,
    phoneNumber <> "" /\
    validateSpacing phoneNumber = None /\
    cleanPhoneNumber phoneNumber = Ok cleaned /\
    parsePhoneNumber cleaned countryCode
    = Ok (CountryCode r, AreaCode r, LocalPhoneNumber r) /\
    cleaned = front +:+ national /\
    splitNationalNumber national (CountryCode r)
    = (AreaCode r, LocalPhoneNumber r) /\
    CountryCode r ∈ supportedCountries /\
    validatePhoneLength national (CountryCode r) = None /\
    PhoneNumber r
    = formatPhoneNumber (CountryCode r) (AreaCode r) (LocalPhoneNumber r).
Proof.
  unfold ValidatePhoneNumber.
  destruct phoneNumber as [|c0 s0]; [discriminate|]. rewrite eqb_empty_false.
  destruct (validateSpacing _) eqn:Hsp; [discriminate|].
  destruct (cleanPhoneNumber _) as [cleaned|] eqn:Hcl; [|discriminate].
  destruct (parsePhoneNumber cleaned countryCode)
    as [[[cc areaCode] localNumber]|] eqn:Hp; [|discriminate].
  destruct (validateCountryCode cc) eqn:Hcc; [discriminate|].
  destruct (validatePhoneLength _ cc) eqn:Hlen; [discriminate|].
  intros [= <-]. cbn [PhoneNumber CountryCode AreaCode LocalPhoneNumber].
  destruct (parsePhoneNumber_Ok _ _ _ _ _ Hp) as (front & national & Hfront & Hsplit).
  exists cleaned, front, national.
  rewrite (splitNationalNumber_append _ _ _ _ Hsplit) in Hlen.
  apply validateCountryCode_None in Hcc. by repeat split.
Qed.

Lemma count_byte_without_space (b : ascii) s :
  b <> " "%char ->
  count_byte b (strings.ReplaceAll s " " "") = count_byte b s.
Proof.
  intros Hb. unfold strings.ReplaceAll. induction s as [|c s IH]; [done|].
  cbn [strings.replace_from count_byte]. rewrite HasPrefix_space.
  change (String.length " " - 1) with 0.
  destruct (Ascii.eqb c " ") eqn:Hc.
  - apply Ascii.eqb_eq in Hc as ->. rewrite append_nil_l, IH.
    by rewrite (proj2 (Ascii.eqb_neq " " b)) by congruence.
  - cbn [count_byte]. by rewrite IH.
Qed.

Lemma length_without_space s :
  String.length s
  = String.length (strings.ReplaceAll s " " "") + count_byte " " s.
Proof.
  unfold strings.ReplaceAll. induction s as [|c s IH]; [done|].
  cbn [strings.replace_from count_byte String.length]. rewrite HasPrefix_space.
  change (1 - 1) with 0.
  destruct (Ascii.eqb c " "); [rewrite append_nil_l|cbn [String.length]]; lia.
Qed.

End Pipeline.

Lemma validateSpacing_count (s : string) :
  validateSpacing s
  = if count_byte " " s =? 3 then Some "invalid spacing pattern" else None.
Proof.
  unfold validateSpacing. rewrite Contains_space, length_Split_space.
  destruct (count_byte " " s) as [|[|[|[|n]]]]; reflexivity.
Qed.

(** X1.  [validateSpacing] counts spaces: it rejects an input exactly when
    the input holds three space bytes, wherever they stand, adjacent or
    not, and accepts every other number of spaces. *)
Theorem validateSpacing_three_spaces (s : string) :
  validateSpacing s
  = if count_byte " " s =? 3 then Some "invalid spacing pattern" else None.
Proof. apply validateSpacing_count. Qed.

(** X2.  When [cleanPhoneNumber] succeeds, the cleaned string has no space,
    holds every other byte as often as the input does, is shorter than the
    input by the number of spaces, and has only bytes of the pattern's
    class. *)
Theorem cleanPhoneNumber_removes_spaces (s cleaned : string) :
  cleanPhoneNumber s = Ok cleaned ->
  count_byte " " cleaned = 0 /\
  (forall b, b <> " "%char -> count_byte b cleaned = count_byte b s) /\
  String.length s = String.length cleaned + count_byte " " s /\
  regexp.all_bytes regexp.validChars_class cleaned = true.
Proof.
  intros Hcl. destruct (cleanPhoneNumber_Ok _ _ Hcl) as [Hsp Hall].
  unfold cleanPhoneNumber in Hcl.
  destruct (negb _); [discriminate|]. injection Hcl as <-.
  split; [done|]. split; [|split; [|done]].
  - intros b Hb. by apply count_byte_without_space.
  - apply length_without_space.
Qed.

Lemma cleanPhoneNumber_removes_spaces_witness :
  count_byte " " "+526313118150" = 0 /\
  (forall b, b <> " "%char ->
             count_byte b "+526313118150" = count_byte b "+52 631 3118150") /\
  String.length "+52 631 3118150"
  = String.length "+526313118150" + count_byte " " "+52 631 3118150" /\
  regexp.all_bytes regexp.validChars_class "+526313118150" = true.
Proof.
  apply (cleanPhoneNumber_removes_spaces "+52 631 3118150" "+526313118150").
  vm_compute. reflexivity.
Defined.

(** X3.  Spaces do not change the outcome: an input that passes the
    spacing check and whose cleaned form is not empty is validated exactly
    as its cleaned form is. *)
Theorem ValidatePhoneNumber_of_cleaned (phoneNumber countryCode cleaned : string) :
  phoneNumber <> "" ->
  validateSpacing phoneNumber = None ->
  cleanPhoneNumber phoneNumber = Ok cleaned ->
  cleaned <> "" ->
  ValidatePhoneNumber phoneNumber countryCode
  = ValidatePhoneNumber cleaned countryCode.
Proof.
  intros Hne Hsp Hcl Hcne.
  destruct (cleanPhoneNumber_Ok _ _ Hcl) as [Hc0 Hall].
  unfold ValidatePhoneNumber.
  destruct phoneNumber as [|c0 s0]; [done|].
  destruct cleaned as [|c1 s1]; [done|].
  rewrite !eqb_empty_false, Hsp, Hcl.
  by rewrite (validateSpacing_no_space _ Hc0), (cleanPhoneNumber_clean _ _ Hc0 Hall).
Qed.

Lemma ValidatePhoneNumber_of_cleaned_witness :
  ValidatePhoneNumber "+52 631 3118150" ""
  = ValidatePhoneNumber "+526313118150" "".
Proof.
  apply (ValidatePhoneNumber_of_cleaned "+52 631 3118150" "" "+526313118150").
  - discriminate.
  - vm_compute. reflexivity.
  - vm_compute. reflexivity.
  - discriminate.
Defined.

(** X4.  [hasDialingCode] and [extractDialingCode] agree: extraction
    succeeds exactly on the strings that [hasDialingCode] accepts, and fails
    with its own message exactly on the others; the [exists] test that
    follows a successful extraction in [parsePhoneNumber] never fails. *)
Theorem hasDialingCode_iff_extractDialingCode (s : string) :
  (hasDialingCode s = true <->
   exists code rest country,
     extractDialingCode s = Ok (code, rest) /\
     s = code +:+ rest /\
     DialingCodeToCountry !! code = Some country) /\
  (hasDialingCode s = false <->
   extractDialingCode s = Err "unable to extract dialing code").
Proof.
  assert (hasDialingCode s = false <->
          extractDialingCode s = Err "unable to extract dialing code") as Hfalse.
  { rewrite hasDialingCode_false. split.
    - apply extractDialingCode_none.
    - apply extractDialingCode_Err_no_prefix. }
  split; [|done]. split.
  - intros Ht. destruct (extractDialingCode s) as [[code rest]|msg] eqn:He.
    + destruct (extractDialingCode_Ok _ _ _ He) as [Hs [country Hc]].
      by exists code, rest, country.
    + pose proof (extractDialingCode_Err _ _ He) as ->.
      assert (hasDialingCode s = false) by (by apply Hfalse). congruence.
  - intros (code & rest & country & He & _ & _).
    apply not_false_iff_true. intros Hh%Hfalse. congruence.
Qed.

(** X5.  The supplied country code is read only for a number without [+]
    and without a dialing-code prefix: when the cleaned number starts with
    [+] or with a known dialing code, the outcome is the same for every
    supplied country code. *)
Theorem supplied_country_code_ignored
    (phoneNumber cleaned countryCode countryCode' : string) :
  cleanPhoneNumber phoneNumber = Ok cleaned ->
  strings.HasPrefix cleaned "+" = true \/ hasDialingCode cleaned = true ->
  ValidatePhoneNumber phoneNumber countryCode
  = ValidatePhoneNumber phoneNumber countryCode'.
Proof.
  intros Hcl Hcode. unfold ValidatePhoneNumber.
  destruct (String.eqb phoneNumber ""); [done|].
  destruct (validateSpacing phoneNumber); [done|]. rewrite Hcl.
  assert (parsePhoneNumber cleaned countryCode
          = parsePhoneNumber cleaned countryCode') as ->; [|done].
  unfold parsePhoneNumber.
  destruct (strings.HasPrefix cleaned "+") eqn:Hplus; [done|].
  destruct Hcode as [Hcode|Hcode]; [done|]. by rewrite Hcode.
Qed.

Lemma supplied_country_code_ignored_witness :
  ValidatePhoneNumber "34 915 872200" "US"
  = ValidatePhoneNumber "34 915 872200" "".
Proof.
  apply (supplied_country_code_ignored "34 915 872200" "34915872200" "US" "").
  - vm_compute. reflexivity.
  - right. vm_compute. reflexivity.
Defined.

(** X6.  The call asks for a country code exactly when the input is not
    empty, passes the spacing and character checks, has neither a leading
    [+] nor a dialing-code prefix once cleaned, and no country code is
    supplied. *)
Theorem country_code_required_iff (phoneNumber countryCode : string) :
  ValidatePhoneNumber phoneNumber countryCode
  = Err "countryCode is required for numbers without country code"
  <->
  phoneNumber <> "" /\
  validateSpacing phoneNumber = None /\
  (exists cleaned,
     cleanPhoneNumber phoneNumber = Ok cleaned /\
     strings.HasPrefix cleaned "+" = false /\
     hasDialingCode cleaned = false) /\
  countryCode = "".
Proof.
  split.
  - intros Herr. unfold ValidatePhoneNumber in Herr.
    destruct phoneNumber as [|c0 s0]; [discriminate|].
    rewrite eqb_empty_false in Herr. split; [done|].
    destruct (validateSpacing _) as [e|] eqn:Hsp;
      [apply validateSpacing_Some in Hsp as ->; discriminate|].
    split; [done|].
    destruct (cleanPhoneNumber _) as [cleaned|e] eqn:Hcl;
      [|apply cleanPhoneNumber_Err in Hcl as ->; discriminate].
    destruct (parsePhoneNumber cleaned countryCode)
      as [[[cc areaCode] localNumber]|e] eqn:Hp.
    { destruct (validateCountryCode cc) as [e|] eqn:Hcc;
        [apply validateCountryCode_Some in Hcc as [-> | ->]; discriminate|].
      apply validateCountryCode_None in Hcc.
      destruct (validatePhoneLength _ cc) as [e|] eqn:Hlen; [|discriminate].
      apply validatePhoneLength_Some in Hlen as ->; [|done].
      rewrite append_cons in Herr. discriminate. }
    injection Herr as ->. unfold parsePhoneNumber in Hp.
    destruct (strings.HasPrefix cleaned "+") eqn:Hplus.
    { cbn [orb] in Hp.
      destruct (extractDialingCode _) as [[code rest]|msg] eqn:He.
      - destruct (extractDialingCode_Ok _ _ _ He) as [_ [country Hc]].
        rewrite Hc in Hp. destruct (splitNationalNumber rest country).
        discriminate.
      - apply extractDialingCode_Err in He as ->. discriminate. }
    destruct (hasDialingCode cleaned) eqn:Hdial.
    { cbn [orb] in Hp.
      destruct (extractDialingCode _) as [[code rest]|msg] eqn:He.
      - destruct (extractDialingCode_Ok _ _ _ He) as [_ [country Hc]].
        rewrite Hc in Hp. destruct (splitNationalNumber rest country).
        discriminate.
      - apply extractDialingCode_Err in He as ->. discriminate. }
    cbn [orb] in Hp. split; [by exists cleaned|].
    destruct countryCode as [|c1 s1]; [done|].
    rewrite eqb_empty_false in Hp.
    destruct (splitNationalNumber cleaned _). discriminate.
  - intros (Hne & Hsp & (cleaned & Hcl & Hplus & Hdial) & ->).
    unfold ValidatePhoneNumber. destruct phoneNumber as [|c0 s0]; [done|].
    rewrite eqb_empty_false, Hsp, Hcl. unfold parsePhoneNumber.
    by rewrite Hplus, Hdial.
Qed.

(** X7.  The message [unable to extract dialing code] is returned exactly
    for the inputs whose cleaned form is a [+] followed by something that
    starts with no known dialing code. *)
Theorem unable_to_extract_iff (phoneNumber countryCode : string) :
  ValidatePhoneNumber phoneNumber countryCode
  = Err "unable to extract dialing code"
  <->
  phoneNumber <> "" /\
  validateSpacing phoneNumber = None /\
  exists rest,
    cleanPhoneNumber phoneNumber = Ok ("+" +:+ rest) /\
    hasDialingCode rest = false.
Proof.
  split.
  - intros Herr. unfold ValidatePhoneNumber in Herr.
    destruct phoneNumber as [|c0 s0]; [discriminate|].
    rewrite eqb_empty_false in Herr. split; [done|].
    destruct (validateSpacing _) as [e|] eqn:Hsp;
      [apply validateSpacing_Some in Hsp as ->; discriminate|].
    split; [done|].
    destruct (cleanPhoneNumber _) as [cleaned|e] eqn:Hcl;
      [|apply cleanPhoneNumber_Err in Hcl as ->; discriminate].
    destruct (parsePhoneNumber cleaned countryCode)
      as [[[cc areaCode] localNumber]|e] eqn:Hp.
    { destruct (validateCountryCode cc) as [e|] eqn:Hcc;
        [apply validateCountryCode_Some in Hcc as [-> | ->]; discriminate|].
      apply validateCountryCode_None in Hcc.
      destruct (validatePhoneLength _ cc) as [e|] eqn:Hlen; [|discriminate].
      apply validatePhoneLength_Some in Hlen as ->; [|done].
      rewrite append_cons in Herr. discriminate. }
    injection Herr as ->. unfold parsePhoneNumber in Hp.
    destruct (strings.HasPrefix cleaned "+") eqn:Hplus.
    + apply HasPrefix_spec in Hplus as [rest ->]. exists rest. split; [done|].
      rewrite append_cons, append_nil_l in Hp. cbn [orb slice_from] in Hp.
      destruct (extractDialingCode rest) as [[code r]|msg] eqn:He.
      * destruct (extractDialingCode_Ok _ _ _ He) as [_ [country Hc]].
        rewrite Hc in Hp. destruct (splitNationalNumber r country).
        discriminate.
      * apply hasDialingCode_false.
        by apply (extractDialingCode_Err_no_prefix _ _ He).
    + destruct (hasDialingCode cleaned) eqn:Hdial; cbn [orb] in Hp.
      * destruct (extractDialingCode cleaned) as [[code r]|msg] eqn:He.
        -- destruct (extractDialingCode_Ok _ _ _ He) as [_ [country Hc]].
           rewrite Hc in Hp. destruct (splitNationalNumber r country).
           discriminate.
        -- apply hasDialingCode_true in Hdial as (c & Hc & Hpre).
           rewrite (extractDialingCode_Err_no_prefix _ _ He c Hc) in Hpre.
           discriminate.
      * destruct (String.eqb countryCode ""); [discriminate|].
        destruct (splitNationalNumber cleaned countryCode). discriminate.
  - intros (Hne & Hsp & rest & Hcl & Hdial).
    apply (plus_unknown_dialing_code _ _ rest); [done..|].
    by apply hasDialingCode_false.
Qed.

(** ** What a successful call returns *)

(** X8.  On success the resolved country is one of the ten supported ones
    and the formatted number starts with [+], holds no space, holds only
    bytes of the pattern's class, and has 12 to 15 bytes. *)
Theorem success_formatted_number
    (phoneNumber countryCode : string) (r : PhoneValidationResponse) :
  ValidatePhoneNumber phoneNumber countryCode = Ok r ->
  CountryCode r ∈ supportedCountries /\
  strings.HasPrefix (PhoneNumber r) "+" = true /\
  count_byte " " (PhoneNumber r) = 0 /\
  regexp.all_bytes regexp.validChars_class (PhoneNumber r) = true /\
  12 <= String.length (PhoneNumber r) <= 15.
Proof.
  intros (cleaned & front & national & _ & _ & Hcl & _ & -> & Hsplit & Hin
          & Hlen & ->)%ValidatePhoneNumber_Ok_inv.
  apply cleanPhoneNumber_Ok in Hcl as [Hsp Hall].
  rewrite count_byte_append in Hsp.
  rewrite all_bytes_append in Hall. apply andb_true_iff in Hall as [_ Hall].
  destruct (dialing_code_owner _ Hin) as (code & owner & Hdial & Hown & _).
  destruct (dialing_code_bytes _ _ Hown) as (Hcsp & Hcall & _).
  unfold formatPhoneNumber, index_or_zero. rewrite Hdial.
  change (default "" (Some code)) with code.
  rewrite (splitNationalNumber_append _ _ _ _ Hsplit).
  rewrite (append_cons "+" ""), append_nil_l.
  split; [done|]. split; [reflexivity|].
  split; [cbn [count_byte Ascii.eqb Bool.eqb];
          rewrite count_byte_append, Hcsp; lia|].
  split; [cbn [regexp.all_bytes]; by rewrite all_bytes_append, Hcall, Hall|].
  cbn [String.length]. rewrite length_append.
  unfold validatePhoneLength in Hlen.
  destruct (CountryPhoneLengths !! CountryCode r) as [[lo hi]|] eqn:Hr;
    [|discriminate].
  destruct (_ || _) eqn:Hb; [discriminate|].
  apply orb_false_iff in Hb as [Hlo%Nat.ltb_ge Hhi%Nat.ltb_ge].
  apply CountryPhoneLengths_Some in Hr. apply CountryDialingCodes_Some in Hdial.
  cases_of_elem Hr; injection Hr as Hcc -> ->; rewrite Hcc in Hdial;
    cases_of_elem Hdial; try discriminate;
    injection Hdial as ->; cbn [String.length]; lia.
Qed.

Lemma success_formatted_number_witness :
  "DE" ∈ supportedCountries /\
  strings.HasPrefix "+49301234567890" "+" = true /\
  count_byte " " "+49301234567890" = 0 /\
  regexp.all_bytes regexp.validChars_class "+49301234567890" = true /\
  12 <= String.length "+49301234567890" <= 15.
Proof.
  refine (success_formatted_number "+49 301 234567890" ""
            {| PhoneNumber := "+49301234567890"; CountryCode := "DE";
               AreaCode := "301"; LocalPhoneNumber := "234567890" |} _).
  vm_compute. reflexivity.
Defined.

(** X9.  On success the area code is never empty: it has 3 bytes for US,
    CA, MX and DE, 2 bytes for ES, PT, FR, IT and BR, and 4 bytes for GB,
    and the local number keeps at least 6 bytes. *)
Theorem success_area_code
    (phoneNumber countryCode : string) (r : PhoneValidationResponse) :
  ValidatePhoneNumber phoneNumber countryCode = Ok r ->
  (CountryCode r ∈ ["US"; "CA"; "MX"; "DE"] -> String.length (AreaCode r) = 3) /\
  (CountryCode r ∈ ["ES"; "PT"; "FR"; "IT"; "BR"] ->
   String.length (AreaCode r) = 2) /\
  (CountryCode r = "GB" -> String.length (AreaCode r) = 4) /\
  AreaCode r <> "" /\
  6 <= String.length (LocalPhoneNumber r).
Proof.
  intros (cleaned & front & national & _ & _ & _ & _ & _ & Hsplit & Hin
          & Hlen & _)%ValidatePhoneNumber_Ok_inv.
  pose proof (splitNationalNumber_append _ _ _ _ Hsplit) as Happ.
  assert (String.length national
          = String.length (AreaCode r) + String.length (LocalPhoneNumber r))
    as Hsum by (by rewrite <- Happ, length_append).
  unfold validatePhoneLength in Hlen.
  destruct (CountryPhoneLengths !! CountryCode r) as [[lo hi]|] eqn:Hr;
    [|discriminate].
  destruct (_ || _) eqn:Hb; [discriminate|].
  apply orb_false_iff in Hb as [Hlo%Nat.ltb_ge Hhi%Nat.ltb_ge].
  assert (forall n, n <= String.length national ->
                    String.length (slice_to national n) = n) as Hto
    by (intros n; apply length_slice_to).
  unfold splitNationalNumber in Hsplit.
  destruct (3 <=? String.length national) eqn:H3;
    [apply Nat.leb_le in H3|apply Nat.leb_gt in H3];
    (destruct (4 <=? String.length national) eqn:H4;
     [apply Nat.leb_le in H4|apply Nat.leb_gt in H4]);
    apply CountryPhoneLengths_Some in Hr;
    cases_of_elem Hr; injection Hr as Hcc -> ->; try (exfalso; lia);
    rewrite Hcc in Hsplit;
    cbn [case_of existsb String.eqb Ascii.eqb Bool.eqb orb] in Hsplit;
    match type of Hsplit with
    | (slice_to _ ?k, _) = _ =>
        assert (String.length (AreaCode r) = k) as Hk
          by (replace (AreaCode r) with (slice_to national k) by congruence;
              apply Hto; lia)
    end;
    rewrite Hcc;
    repeat split; try (intros _; lia); try lia; try discriminate;
    try (intros Hm; cases_of_elem Hm; discriminate);
    intros E; rewrite E in Hk; discriminate.
Qed.

Lemma success_area_code_witness :
  ("GB" ∈ ["US"; "CA"; "MX"; "DE"] -> String.length "2079" = 3) /\
  ("GB" ∈ ["ES"; "PT"; "FR"; "IT"; "BR"] -> String.length "2079" = 2) /\
  ("GB" = "GB" -> String.length "2079" = 4) /\
  "2079" <> "" /\
  6 <= String.length "460958".
Proof.
  refine (success_area_code "+44 2079 460958" ""
            {| PhoneNumber := "+442079460958"; CountryCode := "GB";
               AreaCode := "2079"; LocalPhoneNumber := "460958" |} _).
  vm_compute. reflexivity.
Defined.

Lemma length_slice_to_le (s : string) (n : nat) :
  String.length (slice_to s n) <= n.
Proof.
  revert s. induction n as [|n IH]; intros [|c s]; simpl; try lia.
  specialize (IH s). lia.
Qed.

(** X10.  [splitNationalNumber] loses nothing, for any country code: area
    code followed by local number is the national number again; the area
    code has at most 4 bytes, and it is empty for a country code that is not
    supported. *)
Theorem splitNationalNumber_lossless (nationalNumber countryCode : string) :
  (splitNationalNumber nationalNumber countryCode).1
  +:+ (splitNationalNumber nationalNumber countryCode).2 = nationalNumber /\
  String.length (splitNationalNumber nationalNumber countryCode).1 <= 4 /\
  (countryCode ∉ supportedCountries ->
   splitNationalNumber nationalNumber countryCode = ("", nationalNumber)).
Proof.
  destruct (splitNationalNumber nationalNumber countryCode) as [a l] eqn:Hs.
  split; [by apply splitNationalNumber_append in Hs|]. cbn [fst snd].
  pose proof (length_slice_to_le nationalNumber) as Hto.
  unfold splitNationalNumber in Hs. split.
  - repeat case_match;
      match type of Hs with
      | (?x, _) = _ => assert (a = x) as -> by congruence
      end; try (simpl; lia);
      match goal with |- String.length (slice_to _ ?n) <= _ =>
        pose proof (Hto n); lia end.
  - intros Hnot.
    assert (forall l, (forall x, x ∈ l -> x ∈ supportedCountries) ->
                      case_of countryCode l = false) as Hcase.
    { intros l' Hl. apply not_true_is_false. intros Hin%case_of_true. auto. }
    rewrite !Hcase in Hs;
      [ by destruct (3 <=? _) | intros x Hx; unfold supportedCountries;
                                cases_of_elem Hx; subst x; set_solver .. ].
Qed.

(** ** The tables together *)

(** X11.  The three tables agree on every country that
    [validateCountryCode] accepts: the country has a length range and a
    dialing code of 1 to 3 bytes, that code is a key of the reverse table,
    and [formatPhoneNumber] writes it, never the zero value of a missing
    key. *)
Theorem accepted_country_has_dialing_code
    (countryCode areaCode localNumber : string) :
  validateCountryCode countryCode = None ->
  exists code lo hi,
    CountryPhoneLengths !! countryCode = Some (lo, hi) /\
    9 <= lo <= hi /\ hi <= 12 /\
    CountryDialingCodes !! countryCode = Some code /\
    1 <= String.length code <= 3 /\
    known_code code /\
    formatPhoneNumber countryCode areaCode localNumber
    = "+" +:+ code +:+ areaCode +:+ localNumber.
Proof.
  intros Hin%validateCountryCode_None. unfold supportedCountries in Hin.
  unfold formatPhoneNumber, index_or_zero, known_code.
  cases_of_elem Hin; subst countryCode;
    [ exists "1", 10, 10 | exists "1", 10, 10 | exists "52", 10, 10
    | exists "34", 9, 9 | exists "351", 9, 9 | exists "44", 10, 11
    | exists "33", 10, 10 | exists "49", 10, 12 | exists "39", 9, 11
    | exists "55", 10, 11 ];
    (split; [by vm_compute|]); (split; [lia|]); (split; [lia|]);
    (split; [by vm_compute|]); (split; [simpl; lia|]);
    (split; [eexists; by vm_compute|]); reflexivity.
Qed.

Lemma accepted_country_has_dialing_code_witness :
  exists code lo hi,
    CountryPhoneLengths !! "PT" = Some (lo, hi) /\
    9 <= lo <= hi /\ hi <= 12 /\
    CountryDialingCodes !! "PT" = Some code /\
    1 <= String.length code <= 3 /\
    known_code code /\
    formatPhoneNumber "PT" "21" "0942000"
    = "+" +:+ code +:+ "21" +:+ "0942000".
Proof.
  apply (accepted_country_has_dialing_code "PT" "21" "0942000").
  vm_compute. reflexivity.
Defined.

(** X12.  [extractDialingCode] undoes the prepending of a known dialing
    code, whatever follows the code, even nothing. *)
Theorem extractDialingCode_of_append (code rest : string) :
  known_code code ->
  extractDialingCode (code +:+ rest) = Ok (code, rest).
Proof.
  intros [country Hc%DialingCodeToCountry_Some].
  unfold extractDialingCode. rewrite !exists_key_DialingCodeToCountry.
  destruct rest as [|a [|b rest]];
    cases_of_elem Hc; injection Hc as -> _; vm_compute; reflexivity.
Qed.

Lemma extractDialingCode_of_append_witness :
  extractDialingCode ("44" +:+ "2079460958") = Ok ("44", "2079460958").
Proof.
  apply (extractDialingCode_of_append "44" "2079460958").
  exists "GB". vm_compute. reflexivity.
Defined.

(** X13.  No known dialing code is the beginning of another one: a string
    starts with at most one known dialing code, so the order in which
    [extractDialingCode] probes the lengths never changes its answer. *)
Theorem known_prefix_unique (s c1 c2 : string) :
  known_code c1 -> known_code c2 ->
  strings.HasPrefix s c1 = true ->
  strings.HasPrefix s c2 = true ->
  c1 = c2.
Proof.
  intros [v1 H1%DialingCodeToCountry_Some] [v2 H2%DialingCodeToCountry_Some]
         [r1 ->]%HasPrefix_spec Hp2.
  cases_of_elem H1; injection H1 as -> _;
    cases_of_elem H2; injection H2 as -> _;
    first [reflexivity | by vm_compute in Hp2].
Qed.

Lemma known_prefix_unique_witness : "351" = "351".
Proof.
  apply (known_prefix_unique "351210942000" "351" "351").
  - exists "PT". vm_compute. reflexivity.
  - exists "PT". vm_compute. reflexivity.
  - vm_compute. reflexivity.
  - vm_compute. reflexivity.
Defined.

(** X14.  A country read from the number is never CA: a successful call
    resolves to CA only when CA is the supplied country code, and then the
    cleaned number has neither a leading [+] nor a dialing-code prefix. *)
Theorem CA_only_when_supplied
    (phoneNumber countryCode : string) (r : PhoneValidationResponse) :
  ValidatePhoneNumber phoneNumber countryCode = Ok r ->
  CountryCode r = "CA" ->
  countryCode = "CA" /\
  exists cleaned,
    cleanPhoneNumber phoneNumber = Ok cleaned /\
    strings.HasPrefix cleaned "+" = false /\
    hasDialingCode cleaned = false.
Proof.
  intros (cleaned & front & national & _ & _ & Hcl & Hp & _)%ValidatePhoneNumber_Ok_inv
         Hca.
  rewrite Hca in Hp. unfold parsePhoneNumber in Hp.
  destruct (strings.HasPrefix cleaned "+" || hasDialingCode _) eqn:Hor.
  - destruct (extractDialingCode _) as [[code rest]|] eqn:He; [|discriminate].
    destruct (DialingCodeToCountry !! code) as [country|] eqn:Hc; [|discriminate].
    destruct (splitNationalNumber rest country). injection Hp as -> _ _.
    apply DialingCodeToCountry_Some in Hc. cases_of_elem Hc; discriminate.
  - apply orb_false_iff in Hor as [Hplus Hdial]. rewrite Hplus in *.
    destruct (String.eqb countryCode ""); [discriminate|].
    destruct (splitNationalNumber cleaned countryCode).
    injection Hp as -> _ _. split; [done|]. by exists cleaned.
Qed.

Lemma CA_only_when_supplied_witness :
  "CA" = "CA" /\
  exists cleaned,
    cleanPhoneNumber "416 5550123" = Ok cleaned /\
    strings.HasPrefix cleaned "+" = false /\
    hasDialingCode cleaned = false.
Proof.
  refine (CA_only_when_supplied "416 5550123" "CA"
            {| PhoneNumber := "+14165550123"; CountryCode := "CA";
               AreaCode := "416"; LocalPhoneNumber := "5550123" |} _ _).
  - vm_compute. reflexivity.
  - reflexivity.
Defined.

(** ** The messages of the validator and the handler's answers *)

(** X15.  The messages that [ValidatePhoneNumber] returns are exactly seven
    fixed ones and the length message of each supported country: it returns
    no other message, and each of these is returned for some input.
    [unsupported country dialing code] is not among them. *)
Theorem validator_error_messages :
  (forall phoneNumber countryCode msg,
     ValidatePhoneNumber phoneNumber countryCode = Err msg ->
     msg ∈ [ "phoneNumber is required";
             "invalid spacing pattern";
             "phone number contains invalid characters";
             "unable to extract dialing code";
             "countryCode is required for numbers without country code";
             "country code must be 2 characters (ISO 3166-1 alpha-2)";
             "unsupported country code" ] \/
     exists cc, cc ∈ supportedCountries /\
                msg = "phone number length is invalid for country " +:+ cc) /\
  (forall msg,
     msg ∈ [ "phoneNumber is required";
             "invalid spacing pattern";
             "phone number contains invalid characters";
             "unable to extract dialing code";
             "countryCode is required for numbers without country code";
             "country code must be 2 characters (ISO 3166-1 alpha-2)";
             "unsupported country code" ] ->
     exists phoneNumber countryCode,
       ValidatePhoneNumber phoneNumber countryCode = Err msg) /\
  (forall cc,
     cc ∈ supportedCountries ->
     exists phoneNumber countryCode,
       ValidatePhoneNumber phoneNumber countryCode
       = Err ("phone number length is invalid for country " +:+ cc)) /\
  (forall phoneNumber countryCode,
     ValidatePhoneNumber phoneNumber countryCode
     <> Err "unsupported country dialing code").
Proof.
  split; [apply ValidatePhoneNumber_Err|]. split; [|split].
  - intros msg Hmsg.
    cases_of_elem Hmsg; subst msg;
      [ exists "", "" | exists "1 2 3 4", "" | exists "12-3", ""
      | exists "+2", "" | exists "2", "" | exists "2", "USA"
      | exists "2", "XX" ]; by vm_compute.
  - intros cc Hcc. exists "2", cc. unfold supportedCountries in Hcc.
    cases_of_elem Hcc; subst cc; by vm_compute.
  - intros phoneNumber countryCode
           [Hin | (cc & _ & Hcc)]%ValidatePhoneNumber_Err.
    + cases_of_elem Hin; discriminate.
    + rewrite append_cons in Hcc. discriminate.
Qed.

Section Handler.

Implicit Types (errMsg msg : string) (req : PhoneValidationRequest.t).

Lemma mapValidationError_single errMsg :
  exists field text,
    mapValidationError errMsg = {[ field := text ]} /\
    field ∈ ["phoneNumber"; "countryCode"].
Proof.
  unfold mapValidationError.
  repeat case_match; eexists _, _; (split; [reflexivity|]);
    apply list_elem_of_In; simpl; tauto.
Qed.

Lemma mapValidationError_length_tail (c : ascii) (tail : string) :
  mapValidationError ("phone number length is invalid" +:+ String c tail)
  = {[ "phoneNumber" := "length is invalid for country" ]}.
Proof. vm_compute. reflexivity. Qed.

End Handler.

(** X16.  [mapValidationError] recognises a length message by its first 30
    bytes and needs at least one byte more: every message that continues
    [phone number length is invalid], whatever the country named after it,
    is answered with [length is invalid for country], while those 30 bytes
    alone fall through to [invalid format]. *)
Theorem mapValidationError_length_prefix (tail : string) :
  mapValidationError ("phone number length is invalid" +:+ tail)
  = if String.eqb tail ""
    then {[ "phoneNumber" := "invalid format" ]}
    else {[ "phoneNumber" := "length is invalid for country" ]}.
Proof.
  destruct tail as [|c tail]; [by vm_compute|].
  rewrite eqb_empty_false. apply mapValidationError_length_tail.
Qed.

(** X17.  The handler answers 200 with the validator's response exactly
    when binding and validation both succeed, and 400 otherwise; every 400
    body repeats the phone number of the request and carries exactly one
    error entry, under [phoneNumber], [countryCode] or [validation]. *)
Theorem PhoneNumberLookup_status
    (req : PhoneValidationRequest.t) (bindErr : error) :
  ((PhoneNumberLookup req bindErr).1 = 200 \/
   (PhoneNumberLookup req bindErr).1 = 400) /\
  ((PhoneNumberLookup req bindErr).1 = 200 <->
   bindErr = None /\
   exists r,
     ValidatePhoneNumber (PhoneValidationRequest.PhoneNumber req)
                         (PhoneValidationRequest.CountryCode req) = Ok r /\
     (PhoneNumberLookup req bindErr).2 = JSONResponse r) /\
  ((PhoneNumberLookup req bindErr).1 = 400 ->
   exists field text,
     (PhoneNumberLookup req bindErr).2
     = JSONError {| ErrorResponse.PhoneNumber :=
                      PhoneValidationRequest.PhoneNumber req;
                    ErrorResponse.Error := {[ field := text ]} |} /\
     field ∈ ["phoneNumber"; "countryCode"; "validation"]).
Proof.
  unfold PhoneNumberLookup.
  destruct bindErr as [e|].
  - cbn [fst snd]. split; [by right|]. split.
    + split; [discriminate | by intros [? _]].
    + intros _. eexists _, _. split; [reflexivity|].
      apply list_elem_of_In. simpl. tauto.
  - destruct (ValidatePhoneNumber _ _) as [r|msg] eqn:Hv; cbn [fst snd].
    + split; [by left|]. split.
      * split; [intros _; split; [done|by exists r] | done].
      * discriminate.
    + split; [by right|]. split.
      * split; [discriminate | by intros [_ (r & Hr & _)]].
      * intros _. destruct (mapValidationError_single msg)
          as (field & text & -> & Hf).
        eexists _, _. split; [reflexivity|].
        cases_of_elem Hf; subst field; apply list_elem_of_In; simpl; tauto.
Qed.

(** X18.  How the handler files the validator's errors: the entry is under
    [countryCode] exactly for the three messages about the country code and
    under [phoneNumber] for all others; its text is [invalid format] exactly
    when the validator could not extract a dialing code, and it is never
    [unsupported country dialing code], although [mapValidationError] has a
    case for it. *)
Theorem PhoneNumberLookup_error_entry
    (req : PhoneValidationRequest.t) (msg : string) :
  ValidatePhoneNumber (PhoneValidationRequest.PhoneNumber req)
                      (PhoneValidationRequest.CountryCode req) = Err msg ->
  exists field text,
    PhoneNumberLookup req None
    = (400, JSONError {| ErrorResponse.PhoneNumber :=
                           PhoneValidationRequest.PhoneNumber req;
                         ErrorResponse.Error := {[ field := text ]} |}) /\
    (field = "countryCode" <->
     msg ∈ [ "countryCode is required for numbers without country code";
             "country code must be 2 characters (ISO 3166-1 alpha-2)";
             "unsupported country code" ]) /\
    (field = "phoneNumber" <->
     msg ∉ [ "countryCode is required for numbers without country code";
             "country code must be 2 characters (ISO 3166-1 alpha-2)";
             "unsupported country code" ]) /\
    (text = "invalid format" <-> msg = "unable to extract dialing code") /\
    text <> "unsupported country dialing code".
Proof.
  intros Hv. unfold PhoneNumberLookup. rewrite Hv. cbv zeta.
  apply ValidatePhoneNumber_Err in Hv as [Hin | (cc & Hcc & ->)].
  - cases_of_elem Hin; subst msg;
      [ exists "phoneNumber", "required value is missing"
      | exists "phoneNumber", "invalid spacing pattern"
      | exists "phoneNumber", "contains invalid characters"
      | exists "phoneNumber", "invalid format"
      | exists "countryCode", "required value is missing"
      | exists "countryCode", "invalid format (must be ISO 3166-1 alpha-2)"
      | exists "countryCode", "unsupported country code" ];
      (split; [by vm_compute|]); repeat split; entry_goal.
  - destruct cc as [|c tail].
    { unfold supportedCountries in Hcc. cases_of_elem Hcc; discriminate. }
    exists "phoneNumber", "length is invalid for country".
    assert (mapValidationError
              ("phone number length is invalid for country " +:+ String c tail)
            = {[ "phoneNumber" := "length is invalid for country" ]}) as ->
      by apply (mapValidationError_length_tail
                  " " ("for country " +:+ String c tail)).
    split; [reflexivity|].
    rewrite !append_cons. repeat split; entry_goal.
Qed.

Lemma PhoneNumberLookup_error_entry_witness :
  exists field text,
    PhoneNumberLookup
      {| PhoneValidationRequest.PhoneNumber := "+999123456";
         PhoneValidationRequest.CountryCode := "" |} None
    = (400, JSONError {| ErrorResponse.PhoneNumber := "+999123456";
                         ErrorResponse.Error := {[ field := text ]} |}) /\
    (field = "countryCode" <->
     "unable to extract dialing code"
     ∈ [ "countryCode is required for numbers without country code";
         "country code must be 2 characters (ISO 3166-1 alpha-2)";
         "unsupported country code" ]) /\
    (field = "phoneNumber" <->
     "unable to extract dialing code"
     ∉ [ "countryCode is required for numbers without country code";
         "country code must be 2 characters (ISO 3166-1 alpha-2)";
         "unsupported country code" ]) /\
    (text = "invalid format" <->
     "unable to extract dialing code" = "unable to extract dialing code") /\
    text <> "unsupported country dialing code".
Proof.
  apply (PhoneNumberLookup_error_entry
           {| PhoneValidationRequest.PhoneNumber := "+999123456";
              PhoneValidationRequest.CountryCode := "" |}
           "unable to extract dialing code").
  vm_compute. reflexivity.
Defined.

(** ** The optional plus sign *)

Section OptionalPlus.

Implicit Types (s code rest : string).

Lemma ReplaceAll_space_known_code code country rest :
  DialingCodeToCountry !! code = Some country ->
  strings.ReplaceAll (code +:+ rest) " " ""
  = code +:+ strings.ReplaceAll rest " " "".
Proof.
  intros Hc%DialingCodeToCountry_Some. unfold strings.ReplaceAll.
  cases_of_elem Hc; injection Hc as -> _; reflexivity.
Qed.

Lemma known_code_no_plus code country rest :
  DialingCodeToCountry !! code = Some country ->
  strings.HasPrefix (code +:+ rest) "+" = false.
Proof.
  intros Hc%DialingCodeToCountry_Some.
  cases_of_elem Hc; injection Hc as -> _; reflexivity.
Qed.

End OptionalPlus.

(** X19.  The plus sign is optional in front of a dialing code: when the
    input starts with a known dialing code, writing a [+] before it changes
    nothing in the outcome, whatever country code is supplied. *)
Theorem plus_sign_optional (s countryCode : string) :
  hasDialingCode s = true ->
  ValidatePhoneNumber ("+" +:+ s) countryCode
  = ValidatePhoneNumber s countryCode.
Proof.
  intros (code & [country Hc] & [rest ->]%HasPrefix_spec)%hasDialingCode_true.
  assert (exists c0 s0, code +:+ rest = String c0 s0) as (c0 & s0 & Hs).
  { apply DialingCodeToCountry_Some in Hc.
    cases_of_elem Hc; injection Hc as -> _; eexists _, _; reflexivity. }
  rewrite (append_cons "+" ""), append_nil_l.
  unfold ValidatePhoneNumber.
  rewrite eqb_empty_false, Hs, eqb_empty_false, <- Hs.
  rewrite !validateSpacing_count.
  cbn [count_byte Ascii.eqb Bool.eqb]. rewrite Nat.add_0_l.
  destruct (count_byte " " (code +:+ rest) =? 3); [done|].
  unfold cleanPhoneNumber, regexp.validChars_MatchString.
  rewrite eqb_empty_false, Hs, eqb_empty_false, <- Hs.
  cbn [regexp.all_bytes negb andb].
  assert (regexp.validChars_class "+" = true) as -> by reflexivity.
  cbn [andb].
  destruct (regexp.all_bytes _ (code +:+ rest)); cbn [negb]; [|done].
  unfold strings.ReplaceAll at 1. cbn [strings.replace_from].
  rewrite HasPrefix_space. cbn [Ascii.eqb Bool.eqb].
  fold (strings.ReplaceAll (code +:+ rest) " " "").
  rewrite (ReplaceAll_space_known_code _ _ _ Hc).
  set (national := strings.ReplaceAll rest " " "").
  assert (parsePhoneNumber (String "+" (code +:+ national)) countryCode
          = parsePhoneNumber (code +:+ national) countryCode) as ->; [|done].
  unfold parsePhoneNumber.
  rewrite (known_code_no_plus _ _ _ Hc).
  cbn [strings.HasPrefix Ascii.eqb Bool.eqb andb orb slice_from].
  assert (hasDialingCode (code +:+ national) = true) as ->; [|done].
  apply hasDialingCode_true. exists code. split; [by exists country|].
  apply HasPrefix_spec. by exists national.
Qed.

Lemma plus_sign_optional_witness :
  ValidatePhoneNumber ("+" +:+ "34 915 872200") ""
  = ValidatePhoneNumber "34 915 872200" "".
Proof.
  apply (plus_sign_optional "34 915 872200" "").
  vm_compute. reflexivity.
Defined.
